(** * Split-receipt PDF report: the story built by [generate_split_receipt_pdf]

    A shallow embedding of [src/lib/generate_split_receipt_pdf.py].  The
    function builds a list of layout blocks (the reportlab "story") out of two
    receipt dictionaries and two lists of line-item dictionaries, hands it to
    the layout engine, prints a notice and returns the output path.

    The embedding follows the Python text statement by statement:
    - a [dict] with string keys is a [gmap string pyval]; the values are
      [None], [str] and [int], the types the docstring names and the null of
      a record that comes from a database;
    - an exception is a [Raise] in a small error monad, so the order in which
      the statements are evaluated decides which exception is seen;
    - [x / 100] on an [int] is Python's true division (the quotient correctly
      rounded to a binary64 float) and [:.2f] is the correctly rounded
      two-decimal rendering of that float; both are written out over [Z];
    - the clock read by [datetime.now()] and the file system written by
      [doc.build] are explicit arguments;
    - [Paragraph], [Spacer] and [Table] are constructors that record their
      arguments: what reportlab does with a block (mark-up, line breaking,
      pages) is outside the repository, and of [doc.build] only whether the
      file can be written is kept;
    - a [str] is held as its UTF-8 bytes, so the two literals of the source
      that are not ASCII (the dash of the summary table and the check mark of
      the notice) are their UTF-8 bytes, and a slice [v[:n]] cuts after [n]
      code points, not after [n] bytes.

    What the model leaves out, and how the statements allow for it: the
    layout engine can refuse a text as mark-up when a [Paragraph] is built
    and can fail to lay the story out in [doc.build]; the dictionaries can
    hold a [float] or a [bool].  So no theorem below concludes, for a
    class of inputs, that a call returns: what a returning call wrote is
    stated with the return as a hypothesis, and what is said of all values
    is said of [None], [str] and [int]. *)

From Stdlib Require Import ZArith QArith Lia String Ascii List.
From Stdlib Require Import DecimalString DecimalPos DecimalZ.
From stdpp Require Import gmap strings list fin_maps.

Local Open Scope Z_scope.

(** ** Python values and exceptions *)

(** The values a receipt or item dictionary holds: [None], a [str] or an
    [int] (unbounded). *)
Inductive pyval : Type :=
| VNone
| VStr (s : string)
| VInt (n : Z).

Inductive exn : Type :=
| TypeError
| ValueError
| OverflowError
| OSError.

Inductive result (A : Type) : Type :=
| Ok (a : A)
| Raise (e : exn).
Arguments Ok {A} a.
Arguments Raise {A} e.

Definition bind {A B : Type} (r : result A) (k : A -> result B) : result B :=
  match r with
  | Ok a => k a
  | Raise e => Raise e
  end.

Notation "x <- r ;; k" := (bind r (fun x => k))
  (at level 100, r at next level, right associativity).

(** [d.get(k, default)] *)
Definition get (d : gmap string pyval) (k : string) (default : pyval) : pyval :=
  match d !! k with
  | Some v => v
  | None => default
  end.

(** ** Numbers *)

(** [str(n)] for an [int]. *)
Definition str_of_Z (n : Z) : string := NilZero.string_of_int (Z.to_int n).

(** The least magnitude that [str] does not convert: an [int] of more than
    4300 decimal digits (the default limit of CPython from 3.11 on). *)
(** The most digits of an [int] that [str] converts
    ([sys.int_max_str_digits]). *)
Definition max_str_digits : nat := 4300.

(** [str(v)]: [ValueError] for an [int] of more than 4300 digits, the sign
    not counted. *)
Definition py_str (v : pyval) : result string :=
  match v with
  | VNone => Ok "None"
  | VStr s => Ok s
  | VInt n =>
      if (max_str_digits <? String.length (str_of_Z (Z.abs n)))%nat then Raise ValueError
      else Ok (str_of_Z n)
  end.

(** The integer nearest to [x / d], ties to the even one ([0 <= x], [0 < d]). *)
Definition rne_div (x d : Z) : Z :=
  let q := x / d in
  let r := x mod d in
  if 2 * r <? d then q
  else if d <? 2 * r then q + 1
  else if Z.even q then q else q + 1.

(** A finite binary64 float: [(-1)^fsign * fmant * 2^fexp]. *)
Record float : Type := Float { fsign : bool; fmant : Z; fexp : Z }.

(** [pow2 k] is [2^k] for [0 <= k] and [1] otherwise: the two scalings
    [pow2 e] and [pow2 (- e)] together stand for the rational [2^e]. *)
Definition pow2 (k : Z) : Z := 2 ^ Z.max 0 k.

(** The largest [k] with [100 * 2^k <= a], for [0 < a]: it is [Z.log2 a - 6]
    or [Z.log2 a - 7], because [2^6 < 100 < 2^7]. *)
Definition log2_div100 (a : Z) : Z :=
  let k := Z.log2 a - 6 in
  if 100 * pow2 k <=? a * pow2 (- k) then k else k - 1.

(** [n / 100] for an [int] [n]: the quotient rounded to the nearest float with
    a 53-bit significand, ties to even; [OverflowError] when that is beyond
    the largest float.  A nonzero quotient is at least [0.01] in magnitude, so
    the subnormal range is never reached. *)
Definition int_truediv_100 (n : Z) : result float :=
  if n =? 0 then Ok (Float false 0 0)
  else
    let a := Z.abs n in
    let e := log2_div100 a - 52 in
    let m := rne_div (a * pow2 (- e)) (100 * pow2 e) in
    if 2 ^ 1024 * pow2 (- e) <=? m * pow2 e then Raise OverflowError
    else Ok (Float (n <? 0) m e).

(** [v / 100] *)
Definition py_truediv_100 (v : pyval) : result float :=
  match v with
  | VInt n => int_truediv_100 n
  | _ => Raise TypeError
  end.

Definition two_digits (r : Z) : string :=
  if r <? 10 then "0" +:+ str_of_Z r else str_of_Z r.

(** [f"{x:.2f}"]: the float rounded to the nearest multiple of [0.01], ties to
    even, printed with all its integer digits and two decimals. *)
Definition format_2f (x : float) : string :=
  let c := rne_div (100 * fmant x * pow2 (fexp x)) (pow2 (- fexp x)) in
  (if fsign x then "-" else "") +:+ str_of_Z (c / 100) +:+ "." +:+ two_digits (c mod 100).

(** [f"${(v / 100):.2f}"] *)
Definition fmt_dollars (v : pyval) : result string :=
  x <- py_truediv_100 v ;;
  Ok ("$" +:+ format_2f x).

(** ** Strings *)

Definition nl : string := String (ascii_of_nat 10) EmptyString.
Definition dq : string := String (ascii_of_nat 34) EmptyString.

(** [needle in s] for two [str]: [needle] occurs in [s] at some position. *)
Fixpoint str_contains (needle s : string) : bool :=
  String.prefix needle s ||
  match s with
  | EmptyString => false
  | String _ s' => str_contains needle s'
  end.

(** ["Meal" in v] *)
Definition py_contains_Meal (v : pyval) : result bool :=
  match v with
  | VStr s => Ok (str_contains "Meal" s)
  | _ => Raise TypeError
  end.

(** A byte [10xxxxxx] continues the code point that the bytes before it
    began. *)
Definition is_continuation (c : ascii) : bool :=
  (128 <=? nat_of_ascii c)%nat && (nat_of_ascii c <? 192)%nat.

(** The first [n] code points of a [str]: the bytes up to the byte that
    begins code point [n + 1]. *)
Fixpoint utf8_take (n : nat) (s : string) : string :=
  match s with
  | EmptyString => EmptyString
  | String c s' =>
      if is_continuation c then String c (utf8_take n s')
      else
        match n with
        | O => EmptyString
        | S n' => String c (utf8_take n' s')
        end
  end.

(** [v[:n]] *)
Definition py_slice_to (n : nat) (v : pyval) : result pyval :=
  match v with
  | VStr s => Ok (VStr (utf8_take n s))
  | _ => Raise TypeError
  end.

(** [v1 + v2] *)
Definition py_add (v1 v2 : pyval) : result pyval :=
  match v1, v2 with
  | VInt a, VInt b => Ok (VInt (a + b))
  | VStr a, VStr b => Ok (VStr (a +:+ b))
  | _, _ => Raise TypeError
  end.

(** [f"{v}"] for a [str]: the source formats this way the category, after
    the test of line 142 has found it a [str], and the two cut ids. *)
Definition py_format (v : pyval) : string :=
  match v with
  | VNone => "None"
  | VStr s => s
  | VInt n => str_of_Z n
  end.

(** ** The clock *)

Inductive month : Type :=
| January | February | March | April | May | June
| July | August | September | October | November | December.

Record datetime : Type :=
  Datetime { dt_year : Z; dt_month : month; dt_day : Z; dt_hour : Z; dt_minute : Z }.

Definition month_name (m : month) : string :=
  match m with
  | January => "January" | February => "February" | March => "March"
  | April => "April" | May => "May" | June => "June"
  | July => "July" | August => "August" | September => "September"
  | October => "October" | November => "November" | December => "December"
  end.

(** [t.strftime('%B %d, %Y at %I:%M %p')], for a four-digit year. *)
Definition strftime (t : datetime) : string :=
  let h := dt_hour t mod 12 in
  month_name (dt_month t) +:+ " " +:+ two_digits (dt_day t) +:+ ", " +:+
  str_of_Z (dt_year t) +:+ " at " +:+
  two_digits (if h =? 0 then 12 else h) +:+ ":" +:+ two_digits (dt_minute t) +:+ " " +:+
  (if dt_hour t <? 12 then "AM" else "PM").

(** ** Layout blocks *)

Inductive color : Type :=
| HexColor (s : string)
| white.

Inductive alignment : Type := TA_LEFT | TA_CENTER | TA_RIGHT.

Record ParagraphStyle : Type := {
  ps_name : string;
  ps_parent : string;
  ps_fontSize : Z;
  ps_textColor : color;
  ps_spaceAfter : Z;
  ps_spaceBefore : option Z;
  ps_alignment : option alignment;
  ps_fontName : option string }.

Definition title_style : ParagraphStyle :=
  {| ps_name := "CustomTitle"; ps_parent := "Heading1"; ps_fontSize := 18;
     ps_textColor := HexColor "#1f2937"; ps_spaceAfter := 30; ps_spaceBefore := None;
     ps_alignment := Some TA_CENTER; ps_fontName := Some "Helvetica-Bold" |}.

Definition heading_style : ParagraphStyle :=
  {| ps_name := "CustomHeading"; ps_parent := "Heading2"; ps_fontSize := 14;
     ps_textColor := HexColor "#374151"; ps_spaceAfter := 12; ps_spaceBefore := Some 20;
     ps_alignment := None; ps_fontName := Some "Helvetica-Bold" |}.

Definition body_style : ParagraphStyle :=
  {| ps_name := "CustomBody"; ps_parent := "Normal"; ps_fontSize := 10;
     ps_textColor := HexColor "#4b5563"; ps_spaceAfter := 6; ps_spaceBefore := None;
     ps_alignment := None; ps_fontName := None |}.

(** A [TableStyle] command over the cell range [(c0, r0)] to [(c1, r1)]. *)
Inductive style_cmd : Type :=
| BACKGROUND (a b : Z * Z) (c : color)
| TEXTCOLOR (a b : Z * Z) (c : color)
| FONTNAME (a b : Z * Z) (f : string)
| FONTSIZE (a b : Z * Z) (n : Z)
| ALIGN (a b : Z * Z) (s : string)
| VALIGN (a b : Z * Z) (s : string)
| GRID (a b : Z * Z) (w : Q) (c : color)
| BOTTOMPADDING (a b : Z * Z) (n : Z)
| TOPPADDING (a b : Z * Z) (n : Z).

(** Lengths are in points, as exact rationals. *)
Definition inch : Q := 72.

Inductive block : Type :=
| Paragraph (text : string) (style : ParagraphStyle)
| Spacer (width height : Q)
| Table (data : list (list pyval)) (colWidths : list Q) (style : list style_cmd).

Record SimpleDocTemplate : Type := {
  filename : string;
  pagesize : Q * Q;
  rightMargin : Q;
  leftMargin : Q;
  topMargin : Q;
  bottomMargin : Q }.

Definition letter : Q * Q := (8.5 * inch, 11 * inch)%Q.

(** What [doc.build(story)] leaves in the file: the page set-up and the story,
    which determine the rendered pages. *)
Definition pdf : Type := SimpleDocTemplate * list block.

(** The file system and the standard output.  [writable p] says whether the
    layout engine can write the file [p]; its failures are [OSError]. *)
Record world : Type := {
  writable : string -> bool;
  files : gmap string pdf;
  stdout : list string }.

(** ** The report *)

Definition purpose_text : string :=
  nl +:+
  "    <para alignment=" +:+ dq +:+ "center" +:+ dq +:+ " spaceBefore=" +:+ dq +:+ "12" +:+ dq +:+
  " spaceAfter=" +:+ dq +:+ "12" +:+ dq +:+ ">" +:+ nl +:+
  "    <b>Purpose:</b> This document certifies that a single receipt was split into two separate " +:+ nl +:+
  "    expense entries for proper tax categorization as required by CRA guidelines." +:+ nl +:+
  "    </para>" +:+ nl +:+
  "    ".

Definition compliance_note : string :=
  nl +:+
  "    <para alignment=" +:+ dq +:+ "left" +:+ dq +:+ " fontSize=" +:+ dq +:+ "9" +:+ dq +:+
  " textColor=" +:+ dq +:+ "#6b7280" +:+ dq +:+ " spaceBefore=" +:+ dq +:+ "12" +:+ dq +:+ ">" +:+ nl +:+
  "    <b>CRA Compliance:</b> This split was performed to ensure proper categorization of expenses " +:+ nl +:+
  "    according to Canada Revenue Agency (CRA) guidelines. Each receipt maintains its connection " +:+ nl +:+
  "    to the original transaction while allowing for accurate tax treatment based on the nature " +:+ nl +:+
  "    of each expense. Both receipts reference the same source document for audit purposes." +:+ nl +:+
  "    </para>" +:+ nl +:+
  "    ".

(** The f-string of lines 224-230; [id_a] and [id_b] are the two sliced ids. *)
Definition footer_text (id_a id_b : pyval) : string :=
  nl +:+
  "    <para alignment=" +:+ dq +:+ "center" +:+ dq +:+ " fontSize=" +:+ dq +:+ "8" +:+ dq +:+
  " textColor=" +:+ dq +:+ "#9ca3af" +:+ dq +:+ ">" +:+ nl +:+
  "    This document was automatically generated by the Receipt Management System.<br/>" +:+ nl +:+
  "    Original Receipt ID: " +:+ py_format id_a +:+ "...<br/>" +:+ nl +:+
  "    New Receipt ID: " +:+ py_format id_b +:+ "..." +:+ nl +:+
  "    </para>" +:+ nl +:+
  "    ".

Definition original_table_style : list style_cmd :=
  [ FONTNAME (0, 0) (0, -1) "Helvetica-Bold";
    FONTNAME (1, 0) (1, -1) "Helvetica";
    FONTSIZE (0, 0) (-1, -1) 10;
    TEXTCOLOR (0, 0) (-1, -1) (HexColor "#1f2937");
    ALIGN (0, 0) (0, -1) "LEFT";
    ALIGN (1, 0) (1, -1) "LEFT";
    VALIGN (0, 0) (-1, -1) "TOP";
    BOTTOMPADDING (0, 0) (-1, -1) 8 ].

(** The style of an item table; the two copies in the source (lines 121-131
    and 159-169) differ in the header shade and the grid colour only. *)
Definition items_table_style (shade grid : color) : list style_cmd :=
  [ BACKGROUND (0, 0) (-1, 0) shade;
    FONTNAME (0, 0) (-1, 0) "Helvetica-Bold";
    FONTNAME (0, 1) (-1, -1) "Helvetica";
    FONTSIZE (0, 0) (-1, -1) 9;
    ALIGN (1, 0) (-1, -1) "RIGHT";
    ALIGN (0, 0) (0, -1) "LEFT";
    GRID (0, 0) (-1, -1) 0.5 grid;
    BOTTOMPADDING (0, 0) (-1, -1) 8;
    TOPPADDING (0, 0) (-1, -1) 8 ].

Definition original_items_style : list style_cmd :=
  items_table_style (HexColor "#f3f4f6") (HexColor "#e5e7eb").

Definition new_items_style : list style_cmd :=
  items_table_style (HexColor "#fef3c7") (HexColor "#fbbf24").

Definition summary_table_style : list style_cmd :=
  [ BACKGROUND (0, 0) (-1, 0) (HexColor "#1f2937");
    TEXTCOLOR (0, 0) (-1, 0) white;
    FONTNAME (0, 0) (-1, 0) "Helvetica-Bold";
    FONTNAME (0, 1) (-1, -1) "Helvetica";
    FONTSIZE (0, 0) (-1, -1) 10;
    ALIGN (1, 0) (-1, -1) "CENTER";
    GRID (0, 0) (-1, -1) 0.5 (HexColor "#e5e7eb");
    BOTTOMPADDING (0, 0) (-1, -1) 10;
    TOPPADDING (0, 0) (-1, -1) 10 ].

Definition items_colWidths : list Q := [3 * inch; 0.75 * inch; 1 * inch; 1 * inch]%Q.

Definition items_header : list pyval :=
  [VStr "Description"; VStr "Qty"; VStr "Unit Price"; VStr "Total"].

(** One row of an item table (lines 113-118 and 151-156, the same text). *)
Definition item_row (item : gmap string pyval) : result (list pyval) :=
  let description := get item "description" (VStr "") in
  quantity <- py_str (get item "quantity" (VInt 1)) ;;
  unit_price <- fmt_dollars (get item "unit_price_cents" (VInt 0)) ;;
  total <- fmt_dollars (get item "total_cents" (VInt 0)) ;;
  Ok [description; VStr quantity; VStr unit_price; VStr total].

(** The loop [for item in items: items_data.append(...)]. *)
Fixpoint items_loop (items_data : list (list pyval)) (items : list (gmap string pyval))
  : result (list (list pyval)) :=
  match items with
  | [] => Ok items_data
  | item :: rest =>
      row <- item_row item ;;
      items_loop (items_data ++ [row]) rest
  end.

(** The truth value of a list: [if items:]. *)
Definition py_truthy {A : Type} (l : list A) : bool :=
  match l with
  | [] => false
  | _ :: _ => true
  end.

(** Lines 62-231: the story, block after block. *)
Definition build_story (now : datetime)
    (original_receipt new_receipt : gmap string pyval)
    (original_items new_items : list (gmap string pyval)) : result (list block) :=
  let story := [] in
  (* Title *)
  let story := story ++ [Paragraph "SPLIT RECEIPT DOCUMENTATION" title_style] in
  let story := story ++ [Paragraph ("Generated: " +:+ strftime now) body_style] in
  let story := story ++ [Spacer 1 (0.3 * inch)] in
  (* Purpose box *)
  let story := story ++ [Paragraph purpose_text body_style] in
  let story := story ++ [Spacer 1 (0.2 * inch)] in
  (* Original Receipt Info *)
  let story := story ++ [Paragraph "ORIGINAL RECEIPT" heading_style] in
  original_total <- fmt_dollars (get original_receipt "total_cents" (VInt 0)) ;;
  id8 <- py_slice_to 8 (get original_receipt "id" (VStr "")) ;;
  receipt_id <- py_add id8 (VStr "...") ;;
  let original_data :=
    [ [VStr "Vendor:"; get original_receipt "vendor" (VStr "Unknown")];
      [VStr "Date:"; get original_receipt "receipt_date" (VStr "Not specified")];
      [VStr "Original Total:"; VStr (original_total +:+ " CAD")];
      [VStr "Receipt ID:"; receipt_id] ] in
  let story := story ++ [Table original_data [1.5 * inch; 4.5 * inch]%Q original_table_style] in
  let story := story ++ [Spacer 1 (0.3 * inch)] in
  (* Split Into Section *)
  let story := story ++ [Paragraph "SPLIT INTO TWO RECEIPTS" heading_style] in
  let story := story ++ [Spacer 1 (0.15 * inch)] in
  (* Receipt A (Original - Remaining Items) *)
  let story := story ++ [Paragraph "<b>Receipt A: Office Supplies (100% Deductible)</b>" body_style] in
  let story := story ++ [Spacer 1 (0.1 * inch)] in
  story <-
    (if py_truthy original_items then
       items_data <- items_loop [items_header] original_items ;;
       Ok (story ++ [Table items_data items_colWidths original_items_style])
     else Ok story) ;;
  let receipt_a_total := get original_receipt "total_cents" (VInt 0) in
  let story := story ++ [Spacer 1 (0.1 * inch)] in
  a_total <- fmt_dollars receipt_a_total ;;
  let story := story ++ [Paragraph ("<b>Receipt A Total: " +:+ a_total +:+ " CAD</b>") body_style] in
  let story := story ++ [Paragraph "Tax Treatment: 100% deductible business expense" body_style] in
  let story := story ++ [Spacer 1 (0.25 * inch)] in
  (* Receipt B (New - Mismatched Items) *)
  let category := get new_receipt "suggested_category" (VStr "Other Expenses") in
  is_meal <- py_contains_Meal category ;;
  let deductible := if is_meal then "50%" else "100%" in
  let story := story ++
    [Paragraph ("<b>Receipt B: " +:+ py_format category +:+ " (" +:+ deductible +:+ " Deductible)</b>")
       body_style] in
  let story := story ++ [Spacer 1 (0.1 * inch)] in
  story <-
    (if py_truthy new_items then
       new_items_data <- items_loop [items_header] new_items ;;
       Ok (story ++ [Table new_items_data items_colWidths new_items_style])
     else Ok story) ;;
  let story := story ++ [Spacer 1 (0.1 * inch)] in
  b_total <- fmt_dollars (get new_receipt "total_cents" (VInt 0)) ;;
  let story := story ++ [Paragraph ("<b>Receipt B Total: " +:+ b_total +:+ " CAD</b>") body_style] in
  let story := story ++
    [Paragraph ("Tax Treatment: " +:+ deductible +:+ " deductible (" +:+ py_format category +:+ ")")
       body_style] in
  let story := story ++ [Spacer 1 (0.3 * inch)] in
  (* Summary *)
  let story := story ++ [Paragraph "SUMMARY" heading_style] in
  sum_a <- fmt_dollars receipt_a_total ;;
  sum_b <- fmt_dollars (get new_receipt "total_cents" (VInt 0)) ;;
  grand <- py_add receipt_a_total (get new_receipt "total_cents" (VInt 0)) ;;
  sum_total <- fmt_dollars grand ;;
  let summary_data :=
    [ [VStr ""; VStr "Receipt A"; VStr "Receipt B"; VStr "Total"];
      [VStr "Subtotal + Tax"; VStr sum_a; VStr sum_b; VStr sum_total];
      [VStr "Tax Category"; VStr "Office Supplies"; category; VStr "—"];
      [VStr "Deductibility"; VStr "100%"; VStr deductible; VStr "—"] ] in
  let story := story ++
    [Table summary_data [2 * inch; 1.5 * inch; 1.5 * inch; 1.5 * inch]%Q summary_table_style] in
  let story := story ++ [Spacer 1 (0.3 * inch)] in
  (* CRA Compliance Note *)
  let story := story ++ [Paragraph compliance_note body_style] in
  (* Footer *)
  let story := story ++ [Spacer 1 (0.4 * inch)] in
  id16_a <- py_slice_to 16 (get original_receipt "id" (VStr "")) ;;
  id16_b <- py_slice_to 16 (get new_receipt "id" (VStr "")) ;;
  let story := story ++ [Paragraph (footer_text id16_a id16_b) body_style] in
  Ok story.

(** [doc.build(story)]: the file is written, or the engine raises. *)
Definition doc_build (w : world) (doc : SimpleDocTemplate) (story : list block) : result world :=
  if writable w (filename doc)
  then Ok {| writable := writable w;
             files := <[filename doc := (doc, story)]> (files w);
             stdout := stdout w |}
  else Raise OSError.

(** [print(s)] *)
Definition print (w : world) (s : string) : world :=
  {| writable := writable w; files := files w; stdout := stdout w ++ [s] |}.

(** Lines 26-28: the page set-up. *)
Definition template (output_path : string) : SimpleDocTemplate :=
  {| filename := output_path; pagesize := letter;
     rightMargin := 0.75 * inch; leftMargin := 0.75 * inch;
     topMargin := 0.75 * inch; bottomMargin := 0.75 * inch |}%Q.

(** The function of the module.  [now] is what [datetime.now()] reads during
    the call and [w] the world the call starts in; a [Raise] leaves the world
    as it was. *)
Definition generate_split_receipt_pdf (now : datetime) (w : world)
    (original_receipt new_receipt : gmap string pyval)
    (original_items new_items : list (gmap string pyval))
    (output_path : string) : result (string * world) :=
  let doc := template output_path in
  story <- build_story now original_receipt new_receipt original_items new_items ;;
  (* Build PDF *)
  w <- doc_build w doc story ;;
  let w := print w ("✅ PDF generated: " +:+ output_path) in
  Ok (output_path, w).


(** ** Notions used to state the properties *)

(** The amount [n] cents written exactly: [$], a sign, the dollars, a point
    and the two digits of the cents. *)
Definition exact_dollars (n : Z) : string :=
  "$" +:+ (if n <? 0 then "-" else "") +:+
  str_of_Z (Z.abs n / 100) +:+ "." +:+ two_digits (Z.abs n mod 100).

(** [needle] is a substring of [s]. *)
Definition substring_of (needle s : string) : Prop :=
  exists pre suf, s = pre +:+ needle +:+ suf.

(** The number of code points of a [str]. *)
Fixpoint code_points (s : string) : nat :=
  match s with
  | EmptyString => O
  | String c s' => ((if is_continuation c then 0 else 1) + code_points s')%nat
  end.

(** [s] does not begin in the middle of a code point. *)
Definition at_boundary (s : string) : Prop :=
  match s with
  | EmptyString => True
  | String c _ => is_continuation c = false
  end.

(** [t] is [s] cut to its first [n] characters: [t] begins [s], has [n] code
    points, or all those of [s] when [s] has fewer, and ends where a code
    point ends. *)
Definition first_chars (n : nat) (s t : string) : Prop :=
  code_points t = Nat.min n (code_points s) /\
  exists rest, s = t +:+ rest /\ at_boundary rest.

(** The data of the tables of a story, in order. *)
Definition tables (story : list block) : list (list (list pyval)) :=
  flat_map (fun b => match b with Table data _ _ => [data] | _ => [] end) story.

(** The cell of row [r] and column [c]. *)
Definition cell (data : list (list pyval)) (r c : nat) : option pyval :=
  match data !! r with
  | Some row => row !! c
  | None => None
  end.

(** The story of the file at [p]. *)
Definition story_at (w : world) (p : string) : option (list block) :=
  match files w !! p with
  | Some (_, story) => Some story
  | None => None
  end.

Definition is_str (v : pyval) : bool :=
  match v with
  | VStr _ => true
  | _ => false
  end.

(** The item table of one receipt as a list of blocks: empty when there are
    no items (lines 110-132 and 148-170). *)
Definition items_block (items : list (gmap string pyval)) (style : list style_cmd)
  : result (list block) :=
  if py_truthy items then
    items_data <- items_loop [items_header] items ;;
    Ok [Table items_data items_colWidths style]
  else Ok [].

(** The story in one piece, given the texts computed on the way. *)
Definition assemble (stamp : string) (vendor date : pyval) (original_total : string)
    (receipt_id : pyval) (a_block : list block) (a_total : string)
    (category : pyval) (deductible : string) (b_block : list block) (b_total : string)
    (sum_a sum_b sum_total : string) (id16_a id16_b : pyval) : list block :=
  [ Paragraph "SPLIT RECEIPT DOCUMENTATION" title_style;
    Paragraph ("Generated: " +:+ stamp) body_style;
    Spacer 1 (0.3 * inch);
    Paragraph purpose_text body_style;
    Spacer 1 (0.2 * inch);
    Paragraph "ORIGINAL RECEIPT" heading_style;
    Table [ [VStr "Vendor:"; vendor];
            [VStr "Date:"; date];
            [VStr "Original Total:"; VStr (original_total +:+ " CAD")];
            [VStr "Receipt ID:"; receipt_id] ]
      [1.5 * inch; 4.5 * inch]%Q original_table_style;
    Spacer 1 (0.3 * inch);
    Paragraph "SPLIT INTO TWO RECEIPTS" heading_style;
    Spacer 1 (0.15 * inch);
    Paragraph "<b>Receipt A: Office Supplies (100% Deductible)</b>" body_style;
    Spacer 1 (0.1 * inch) ] ++
  a_block ++
  [ Spacer 1 (0.1 * inch);
    Paragraph ("<b>Receipt A Total: " +:+ a_total +:+ " CAD</b>") body_style;
    Paragraph "Tax Treatment: 100% deductible business expense" body_style;
    Spacer 1 (0.25 * inch);
    Paragraph ("<b>Receipt B: " +:+ py_format category +:+ " (" +:+ deductible +:+ " Deductible)</b>")
      body_style;
    Spacer 1 (0.1 * inch) ] ++
  b_block ++
  [ Spacer 1 (0.1 * inch);
    Paragraph ("<b>Receipt B Total: " +:+ b_total +:+ " CAD</b>") body_style;
    Paragraph ("Tax Treatment: " +:+ deductible +:+ " deductible (" +:+ py_format category +:+ ")")
      body_style;
    Spacer 1 (0.3 * inch);
    Paragraph "SUMMARY" heading_style;
    Table [ [VStr ""; VStr "Receipt A"; VStr "Receipt B"; VStr "Total"];
            [VStr "Subtotal + Tax"; VStr sum_a; VStr sum_b; VStr sum_total];
            [VStr "Tax Category"; VStr "Office Supplies"; category; VStr "—"];
            [VStr "Deductibility"; VStr "100%"; VStr deductible; VStr "—"] ]
      [2 * inch; 1.5 * inch; 1.5 * inch; 1.5 * inch]%Q summary_table_style;
    Spacer 1 (0.3 * inch);
    Paragraph compliance_note body_style;
    Spacer 1 (0.4 * inch);
    Paragraph (footer_text id16_a id16_b) body_style ].

(** The same computation as [build_story], with the appends gathered. *)
Definition build_story_flat (now : datetime)
    (original_receipt new_receipt : gmap string pyval)
    (original_items new_items : list (gmap string pyval)) : result (list block) :=
  let receipt_a_total := get original_receipt "total_cents" (VInt 0) in
  let new_total := get new_receipt "total_cents" (VInt 0) in
  let category := get new_receipt "suggested_category" (VStr "Other Expenses") in
  a_total <- fmt_dollars receipt_a_total ;;
  id8 <- py_slice_to 8 (get original_receipt "id" (VStr "")) ;;
  receipt_id <- py_add id8 (VStr "...") ;;
  a_block <- items_block original_items original_items_style ;;
  is_meal <- py_contains_Meal category ;;
  b_block <- items_block new_items new_items_style ;;
  b_total <- fmt_dollars new_total ;;
  grand <- py_add receipt_a_total new_total ;;
  sum_total <- fmt_dollars grand ;;
  id16_a <- py_slice_to 16 (get original_receipt "id" (VStr "")) ;;
  id16_b <- py_slice_to 16 (get new_receipt "id" (VStr "")) ;;
  Ok (assemble (strftime now)
        (get original_receipt "vendor" (VStr "Unknown"))
        (get original_receipt "receipt_date" (VStr "Not specified"))
        a_total receipt_id a_block a_total category
        (if is_meal then "50%" else "100%") b_block b_total
        a_total b_total sum_total id16_a id16_b).

(** What a story that was built is made of. *)
Definition story_parts (now : datetime)
    (o n : gmap string pyval) (oi ni : list (gmap string pyval))
    (story : list block) : Prop :=
  exists a_total b_total sum_total oid nid cat a_block b_block grand,
    fmt_dollars (get o "total_cents" (VInt 0)) = Ok a_total /\
    fmt_dollars (get n "total_cents" (VInt 0)) = Ok b_total /\
    py_add (get o "total_cents" (VInt 0)) (get n "total_cents" (VInt 0)) = Ok grand /\
    fmt_dollars grand = Ok sum_total /\
    get o "id" (VStr "") = VStr oid /\
    get n "id" (VStr "") = VStr nid /\
    get n "suggested_category" (VStr "Other Expenses") = VStr cat /\
    items_block oi original_items_style = Ok a_block /\
    items_block ni new_items_style = Ok b_block /\
    story =
      assemble (strftime now)
        (get o "vendor" (VStr "Unknown")) (get o "receipt_date" (VStr "Not specified"))
        a_total (VStr (utf8_take 8 oid +:+ "...")) a_block a_total
        (VStr cat) (if str_contains "Meal" cat then "50%" else "100%") b_block b_total
        a_total b_total sum_total
        (VStr (utf8_take 16 oid)) (VStr (utf8_take 16 nid)).

(** [row] is the table row of [item]: the description, the quantity and the
    two amounts, each absent key read with its default. *)
Definition row_with_defaults (item : gmap string pyval) (row : list pyval) : Prop :=
  item_row item = Ok row /\
  exists quantity unit_price total,
    py_str (get item "quantity" (VInt 1)) = Ok quantity /\
    fmt_dollars (get item "unit_price_cents" (VInt 0)) = Ok unit_price /\
    fmt_dollars (get item "total_cents" (VInt 0)) = Ok total /\
    row = [get item "description" (VStr ""); VStr quantity; VStr unit_price; VStr total] /\
    (item !! "description" = None -> row !! 0%nat = Some (VStr "")) /\
    (item !! "quantity" = None -> row !! 1%nat = Some (VStr "1")) /\
    (item !! "unit_price_cents" = None -> row !! 2%nat = Some (VStr "$0.00")) /\
    (item !! "total_cents" = None -> row !! 3%nat = Some (VStr "$0.00")).

(** The character of the decimal digit [d]. *)
Definition digit_char (d : Z) : ascii := ascii_of_nat (48 + Z.to_nat d).

(** [c] cents written with a sign: [$], the sign, the dollars, a point and
    the two digits of the cents. *)
Definition dollars_text (negative : bool) (c : Z) : string :=
  "$" +:+ (if negative then "-" else "") +:+ str_of_Z (c / 100) +:+ "." +:+
  String (digit_char (c mod 100 / 10)) (String (digit_char (c mod 10)) EmptyString).

(** The least magnitude, in cents, whose quotient by 100 rounds beyond the
    largest float: [100 * (2^1024 - 2^970)]. *)
Definition overflow_threshold : Z := 100 * (2 ^ 1024 - 2 ^ 970).

(** An [int] below the threshold in magnitude. *)
Definition formattable (v : pyval) : bool :=
  match v with
  | VInt n => Z.abs n <? overflow_threshold
  | _ => false
  end.

(** A value that [str] converts: not an [int] of more than 4300 digits. *)
Definition printable (v : pyval) : bool :=
  match v with
  | VInt n => (String.length (str_of_Z (Z.abs n)) <=? max_str_digits)%nat
  | _ => true
  end.

(** The quantity of an item converts and its two amounts format, an absent
    one by its default. *)
Definition item_formattable (item : gmap string pyval) : bool :=
  printable (get item "quantity" (VInt 1)) &&
  formattable (get item "unit_price_cents" (VInt 0)) &&
  formattable (get item "total_cents" (VInt 0)).

(** The record with [default] at [k] when it has no [k]. *)
Definition with_default (k : string) (default : pyval) (d : gmap string pyval)
  : gmap string pyval :=
  match d !! k with
  | Some _ => d
  | None => <[k := default]> d
  end.

(** The four keys that are read of an item. *)
Definition item_keys : list string :=
  ["description"; "quantity"; "unit_price_cents"; "total_cents"].

(** An item with, at each key it lacks, the default of lines 113-118. *)
Definition fill_defaults (item : gmap string pyval) : gmap string pyval :=
  with_default "description" (VStr "")
    (with_default "quantity" (VInt 1)
       (with_default "unit_price_cents" (VInt 0)
          (with_default "total_cents" (VInt 0) item))).

(** The characters [0] to [9]. *)
Definition is_digit (c : ascii) : bool :=
  (48 <=? nat_of_ascii c)%nat && (nat_of_ascii c <=? 57)%nat.

Fixpoint all_digits (s : string) : bool :=
  match s with
  | EmptyString => true
  | String c s' => is_digit c && all_digits s'
  end.

(** Sample inputs. *)
Definition sample_now : datetime := Datetime 2026 November 3 14 5.
Definition sample_later : datetime := Datetime 2026 November 3 14 6.

Definition sample_world : world :=
  {| writable := fun _ => true; files := ∅; stdout := [] |}.


Definition sample_original : gmap string pyval :=
  <["id" := VStr "0123456789abcdefghij"]>
    (<["vendor" := VStr "Staples"]>
       (<["receipt_date" := VStr "2026-10-31"]>
          (<["total_cents" := VInt 1050]> ∅))).

Definition sample_new : gmap string pyval :=
  <["id" := VStr "fedcba9876543210zyxw"]>
    (<["suggested_category" := VStr "Meals & Entertainment"]>
       (<["total_cents" := VInt 2575]> ∅)).

Definition sample_item : gmap string pyval :=
  <["description" := VStr "Pens"]>
    (<["quantity" := VInt 3]>
       (<["unit_price_cents" := VInt 350]>
          (<["total_cents" := VInt 1050]> ∅))).

(** ** Arithmetic of the two roundings *)

Lemma pow2_pos k : 0 < pow2 k.
Proof. unfold pow2. apply Z.pow_pos_nonneg; lia. Qed.

Lemma pow2_nonneg k : 0 <= k -> pow2 k = 2 ^ k.
Proof. intros. unfold pow2. f_equal. lia. Qed.

Lemma pow2_nonpos k : k <= 0 -> pow2 k = 1.
Proof. intros. unfold pow2. replace (Z.max 0 k) with 0 by lia. reflexivity. Qed.

Lemma rne_div_cases x d :
  0 < d ->
  exists q r, x = d * q + r /\ 0 <= r < d /\
    (rne_div x d = q /\ 2 * r <= d \/ rne_div x d = q + 1 /\ d <= 2 * r).
Proof.
  intros Hd. exists (x / d), (x mod d).
  pose proof (Z.div_mod x d ltac:(lia)) as E.
  pose proof (Z.mod_pos_bound x d Hd) as B.
  split; [exact E|]. split; [exact B|].
  unfold rne_div.
  destruct (Z.ltb_spec (2 * (x mod d)) d); [left; lia|].
  destruct (Z.ltb_spec d (2 * (x mod d))); [right; lia|].
  destruct (Z.even (x / d)); [left; lia | right; lia].
Qed.

Lemma rne_div_error x d : 0 < d -> 2 * Z.abs (d * rne_div x d - x) <= d.
Proof.
  intros Hd. destruct (rne_div_cases x d Hd) as (q & r & E & B & [[-> H]|[-> H]]); nia.
Qed.

Lemma rne_div_near x d a : 0 < d -> 2 * Z.abs (x - a * d) < d -> rne_div x d = a.
Proof.
  intros Hd H. destruct (rne_div_cases x d Hd) as (q & r & E & B & [[-> H']|[-> H']]); nia.
Qed.

Lemma rne_div_upper x d b : 0 < d -> 0 <= x < d * b -> 0 <= rne_div x d <= b.
Proof.
  intros Hd H. destruct (rne_div_cases x d Hd) as (q & r & E & B & [[-> H']|[-> H']]); nia.
Qed.

Lemma pow2_add j k : 0 <= j -> 0 <= k -> pow2 (j + k) = pow2 j * pow2 k.
Proof. intros. rewrite !pow2_nonneg by lia. apply Z.pow_add_r; lia. Qed.

(** [pow2 k] and [pow2 (- k)] shifted by [j] places, the three positions of
    zero with respect to [k] and [k + j]. *)
Lemma pow2_shift k j :
  0 <= j ->
  pow2 (k + j) * pow2 (- k) = pow2 k * pow2 (- (k + j)) * pow2 j.
Proof.
  intros Hj.
  destruct (Z.le_gt_cases 0 k) as [Hk|Hk].
  - rewrite (pow2_nonpos (- k)), (pow2_nonpos (- (k + j))) by lia.
    rewrite pow2_add by lia. ring.
  - destruct (Z.le_gt_cases (k + j) 0) as [Hkj|Hkj].
    + rewrite (pow2_nonpos k), (pow2_nonpos (k + j)) by lia.
      replace (- k) with (- (k + j) + j) by lia. rewrite pow2_add by lia. ring.
    + rewrite (pow2_nonpos k), (pow2_nonpos (- (k + j))) by lia.
      assert (E : pow2 j = pow2 (k + j) * pow2 (- k))
        by (rewrite <- pow2_add by lia; f_equal; lia).
      rewrite E. ring.
Qed.

Lemma log2_div100_lower a :
  0 < a -> 100 * pow2 (log2_div100 a) <= a * pow2 (- log2_div100 a).
Proof.
  intros Ha. unfold log2_div100.
  destruct (Z.leb_spec (100 * pow2 (Z.log2 a - 6)) (a * pow2 (- (Z.log2 a - 6)))) as [H|H];
    [exact H|].
  destruct (Z.log2_spec a Ha) as [Hl _].
  pose proof (Z.log2_nonneg a) as Hn.
  pose proof (pow2_shift (Z.log2 a - 6 - 1) 7 ltac:(lia)) as S.
  replace (Z.log2 a - 6 - 1 + 7) with (Z.log2 a) in S by lia.
  rewrite (pow2_nonneg (Z.log2 a)), (pow2_nonneg 7) in S by lia.
  change (2 ^ 7) with 128 in S.
  pose proof (pow2_pos (Z.log2 a - 6 - 1)). pose proof (pow2_pos (- (Z.log2 a - 6 - 1))).
  pose proof (pow2_pos (- Z.log2 a)) as P0.
  rewrite (pow2_nonpos (- Z.log2 a)) in S by lia.
  nia.
Qed.

Lemma log2_div100_upper a :
  0 < a -> a * pow2 (- (log2_div100 a + 1)) < 100 * pow2 (log2_div100 a + 1).
Proof.
  intros Ha. unfold log2_div100.
  destruct (Z.leb_spec (100 * pow2 (Z.log2 a - 6)) (a * pow2 (- (Z.log2 a - 6)))) as [H|H].
  - destruct (Z.log2_spec a Ha) as [_ Hu].
    pose proof (Z.log2_nonneg a) as Hn.
    pose proof (pow2_shift (Z.log2 a - 6 + 1) 6 ltac:(lia)) as S.
    replace (Z.log2 a - 6 + 1 + 6) with (Z.succ (Z.log2 a)) in S by lia.
    rewrite (pow2_nonneg (Z.succ (Z.log2 a))), (pow2_nonneg 6) in S by lia.
    change (2 ^ 6) with 64 in S.
    rewrite (pow2_nonpos (- Z.succ (Z.log2 a))) in S by lia.
    pose proof (pow2_pos (Z.log2 a - 6 + 1)). pose proof (pow2_pos (- (Z.log2 a - 6 + 1))).
    nia.
  - replace (Z.log2 a - 6 - 1 + 1) with (Z.log2 a - 6) by lia. exact H.
Qed.

Lemma log2_div100_range a : Z.log2 a - 7 <= log2_div100 a <= Z.log2 a - 6.
Proof. unfold log2_div100. destruct (_ <=? _); lia. Qed.

(** The significand has at most 53 bits before rounding. *)
Lemma mant_bound a :
  0 < a ->
  0 <= a * pow2 (- (log2_div100 a - 52)) < 100 * pow2 (log2_div100 a - 52) * 2 ^ 53.
Proof.
  intros Ha.
  pose proof (log2_div100_upper a Ha) as U.
  pose proof (pow2_shift (log2_div100 a - 52) 53 ltac:(lia)) as S.
  replace (log2_div100 a - 52 + 53) with (log2_div100 a + 1) in S by lia.
  rewrite (pow2_nonneg 53) in S by lia.
  pose proof (pow2_pos (log2_div100 a - 52)). pose proof (pow2_pos (- (log2_div100 a - 52))).
  pose proof (pow2_pos (log2_div100 a + 1)). pose proof (pow2_pos (- (log2_div100 a + 1))).
  split; [nia|].
  apply Z.mul_lt_mono_pos_r with (p := pow2 (- (log2_div100 a + 1))); [lia|].
  nia.
Qed.

Lemma int_truediv_100_total n :
  Z.abs n < 2 ^ 1029 -> exists x, int_truediv_100 n = Ok x.
Proof.
  intros Hn. unfold int_truediv_100.
  destruct (Z.eqb_spec n 0) as [->|Hz]; [eauto|].
  set (a := Z.abs n) in *. assert (Ha : 0 < a) by (subst a; lia).
  set (e := log2_div100 a - 52).
  pose proof (mant_bound a Ha) as B. fold e in B.
  pose proof (pow2_pos e) as Pe. pose proof (pow2_pos (- e)) as Pe'.
  pose proof (rne_div_upper _ (100 * pow2 e) (2 ^ 53) ltac:(lia) B) as M.
  set (m := rne_div _ _) in *.
  destruct (Z.leb_spec (2 ^ 1024 * pow2 (- e)) (m * pow2 e)) as [H|H]; [exfalso|eauto].
  assert (He : e <= 970).
  { pose proof (log2_div100_range a) as R.
    assert (Z.log2 a < 1029) by (apply Z.log2_lt_pow2; lia). lia. }
  assert (P : pow2 e <= 2 ^ 970).
  { unfold pow2. apply Z.pow_le_mono_r; lia. }
  assert (2 ^ 53 * 2 ^ 970 < 2 ^ 1024) by (rewrite <- Z.pow_add_r by lia; apply Z.pow_lt_mono_r; lia).
  nia.
Qed.

Lemma int_truediv_100_exact n :
  Z.abs n <= 100 * 2 ^ 46 ->
  exists m e, int_truediv_100 n = Ok (Float (n <? 0) m e) /\
    rne_div (100 * m * pow2 e) (pow2 (- e)) = Z.abs n.
Proof.
  intros Hn.
  destruct (Z.eq_dec (Z.abs n) (100 * 2 ^ 46)) as [Hmax|Hlt].
  { assert (n = 100 * 2 ^ 46 \/ n = - (100 * 2 ^ 46)) as [->| ->] by lia;
      do 2 eexists; split; vm_compute; reflexivity. }
  destruct (int_truediv_100_total n ltac:(lia)) as [x Hx].
  unfold int_truediv_100 in *.
  destruct (Z.eqb_spec n 0) as [->|Hz].
  { do 2 eexists. split; [reflexivity|]. vm_compute. reflexivity. }
  set (a := Z.abs n) in *. assert (Ha : 0 < a) by (subst a; lia).
  set (e := log2_div100 a - 52) in *.
  set (m := rne_div _ _) in *.
  destruct (_ <=? _); [discriminate|].
  exists m, e. split; [reflexivity|].
  assert (He : e <= -7).
  { pose proof (log2_div100_lower a Ha) as L.
    destruct (Z.le_gt_cases 46 (log2_div100 a)) as [G|G]; [exfalso|lia].
    rewrite (pow2_nonpos (- log2_div100 a)), pow2_nonneg in L by lia.
    assert (2 ^ 46 <= 2 ^ log2_div100 a) by (apply Z.pow_le_mono_r; lia). lia. }
  assert (Em : m = rne_div (a * pow2 (- e)) (100 * 1))
    by (subst m; rewrite (pow2_nonpos e) by lia; reflexivity).
  rewrite (pow2_nonpos e) by lia. clearbody m.
  assert (P : 2 ^ 7 <= pow2 (- e)).
  { rewrite pow2_nonneg by lia. apply Z.pow_le_mono_r; lia. }
  change (2 ^ 7) with 128 in P.
  pose proof (rne_div_error (a * pow2 (- e)) (100 * 1) ltac:(lia)) as E.
  rewrite <- Em in E.
  apply rne_div_near; lia.
Qed.

Lemma fmt_dollars_exact n :
  Z.abs n <= 100 * 2 ^ 46 -> fmt_dollars (VInt n) = Ok (exact_dollars n).
Proof.
  intros Hn. destruct (int_truediv_100_exact n Hn) as (m & e & E & C).
  unfold fmt_dollars, py_truediv_100. rewrite E. simpl bind.
  unfold format_2f, exact_dollars. simpl fsign. simpl fmant. simpl fexp.
  rewrite C. reflexivity.
Qed.

(** ** The story, flattened *)

Lemma bind_Ok {A B : Type} (r : result A) (k : A -> result B) b :
  bind r k = Ok b <-> exists a, r = Ok a /\ k a = Ok b.
Proof.
  destruct r; simpl; split.
  - eauto.
  - intros (a' & [= ->] & H). exact H.
  - discriminate.
  - intros (a' & [=] & _).
Qed.

Ltac case_bind :=
  match goal with
  | |- context [bind ?r _] =>
      let a := fresh "a" in destruct r as [a|] eqn:?; cbn [bind]; [|reflexivity]
  end.

Lemma build_story_flat_eq now o n oi ni :
  build_story now o n oi ni = build_story_flat now o n oi ni.
Proof.
  unfold build_story, build_story_flat, items_block.
  cbv zeta.
  case_bind. case_bind. case_bind.
  destruct oi as [|i oi]; cbn [py_truthy bind].
  - case_bind. destruct ni as [|j ni]; cbn [py_truthy bind].
    + repeat case_bind. reflexivity.
    + repeat case_bind. reflexivity.
  - case_bind. case_bind. destruct ni as [|j ni]; cbn [py_truthy bind].
    + repeat case_bind. reflexivity.
    + repeat case_bind. reflexivity.
Qed.

Lemma py_slice_to_Ok k v r :
  py_slice_to k v = Ok r <-> exists s, v = VStr s /\ r = VStr (utf8_take k s).
Proof.
  destruct v; simpl; split; try discriminate.
  - intros (s & [=] & _).
  - intros [= <-]. eauto.
  - intros (s' & [= <-] & ->). reflexivity.
  - intros (s & [=] & _).
Qed.

Lemma py_contains_Meal_Ok v b :
  py_contains_Meal v = Ok b <-> exists s, v = VStr s /\ b = str_contains "Meal" s.
Proof.
  destruct v; simpl; split; try discriminate.
  - intros (s & [=] & _).
  - intros [= <-]. eauto.
  - intros (s' & [= <-] & ->). reflexivity.
  - intros (s & [=] & _).
Qed.

Lemma build_story_parts now o n oi ni story :
  build_story now o n oi ni = Ok story <-> story_parts now o n oi ni story.
Proof.
  rewrite build_story_flat_eq. unfold build_story_flat, story_parts. cbv zeta. split.
  - intros H.
    apply bind_Ok in H as (a_total & Ha & H).
    apply bind_Ok in H as (id8 & H8 & H).
    apply py_slice_to_Ok in H8 as (oid & Hoid & ->).
    cbn [py_add bind] in H.
    apply bind_Ok in H as (a_block & Hab & H).
    apply bind_Ok in H as (is_meal & Hm & H).
    apply py_contains_Meal_Ok in Hm as (cat & Hcat & ->).
    apply bind_Ok in H as (b_block & Hbb & H).
    apply bind_Ok in H as (b_total & Hb & H).
    apply bind_Ok in H as (grand & Hg & H).
    apply bind_Ok in H as (sum_total & Hs & H).
    apply bind_Ok in H as (id16_a & H16a & H).
    apply py_slice_to_Ok in H16a as (oid' & Hoid' & ->).
    apply bind_Ok in H as (id16_b & H16b & H).
    apply py_slice_to_Ok in H16b as (nid & Hnid & ->).
    injection H as <-.
    assert (oid' = oid) as -> by congruence.
    exists a_total, b_total, sum_total, oid, nid, cat, a_block, b_block, grand.
    rewrite Hcat. repeat (split; [assumption || reflexivity|]). reflexivity.
  - intros (a_total & b_total & sum_total & oid & nid & cat & a_block & b_block & grand &
            Ha & Hb & Hg & Hs & Hoid & Hnid & Hcat & Hab & Hbb & ->).
    rewrite Ha, Hoid, Hab, Hcat, Hbb, Hb, Hnid. cbn [bind py_slice_to py_add py_contains_Meal].
    rewrite Hg. cbn [bind]. rewrite Hs. reflexivity.
Qed.

(** ** Strings *)

Lemma append_cons c s t : String c s +:+ t = String c (s +:+ t).
Proof. reflexivity. Qed.

Lemma prefix_append needle s :
  String.prefix needle s = true <-> exists suf, s = needle +:+ suf.
Proof.
  revert s. induction needle as [|c needle IH]; intros s.
  - split; [intros _; exists s; reflexivity | intros _; destruct s; reflexivity].
  - destruct s as [|c' s]; simpl.
    + split; [discriminate | intros (suf & [=])].
    + setoid_rewrite append_cons.
      destruct (ascii_dec c c') as [->|Hc].
      * rewrite IH. split; intros (suf & E); exists suf; congruence.
      * split; [discriminate | intros (suf & E); congruence].
Qed.

Lemma str_contains_spec needle s :
  str_contains needle s = true <-> substring_of needle s.
Proof.
  unfold substring_of. induction s as [|c s IH].
  - cbn [str_contains]. rewrite orb_false_r, prefix_append. split.
    + intros (suf & E). exists "", suf. exact E.
    + intros (pre & suf & E). destruct pre; [eauto | discriminate].
  - cbn [str_contains]. rewrite orb_true_iff, prefix_append, IH. split.
    + intros [(suf & E)|(pre & suf & E)].
      * exists "", suf. exact E.
      * exists (String c pre), suf. rewrite append_cons. congruence.
    + intros (pre & suf & E). destruct pre as [|c' pre].
      * left. eauto.
      * right. rewrite append_cons in E. injection E as _ E. eauto.
Qed.

Lemma str_contains_false needle s :
  str_contains needle s = false <-> ~ substring_of needle s.
Proof.
  rewrite <- str_contains_spec. destruct (str_contains needle s); split; congruence.
Qed.

Lemma utf8_take_first_chars n s : first_chars n s (utf8_take n s).
Proof.
  unfold first_chars. revert n. induction s as [|c s IH]; intros n.
  - split; [destruct n; reflexivity | exists ""; split; [reflexivity | exact I]].
  - cbn [utf8_take code_points]. destruct (is_continuation c) eqn:C.
    + destruct (IH n) as (L & rest & E & B). cbn [code_points]. rewrite C. split; [exact L|].
      exists rest. rewrite append_cons. split; [congruence | exact B].
    + destruct n as [|n].
      * split; [reflexivity|]. exists (String c s). split; [reflexivity | exact C].
      * destruct (IH n) as (L & rest & E & B). cbn [code_points]. rewrite C. split; [lia|].
        exists rest. rewrite append_cons. split; [congruence | exact B].
Qed.

Lemma utf8_take_all n s : (code_points s <= n)%nat -> utf8_take n s = s.
Proof.
  revert n. induction s as [|c s IH]; intros n H; [reflexivity|].
  cbn [utf8_take code_points] in *. destruct (is_continuation c).
  - rewrite IH by lia. reflexivity.
  - destruct n as [|n]; [lia|]. rewrite IH by lia. reflexivity.
Qed.

Lemma utf8_take_again n m s :
  (n <= m)%nat -> utf8_take n (utf8_take m s) = utf8_take n s.
Proof.
  revert n m. induction s as [|c s IH]; intros n m H; [reflexivity|].
  cbn [utf8_take]. destruct (is_continuation c) eqn:C.
  - cbn [utf8_take]. rewrite C, IH by lia. reflexivity.
  - destruct m as [|m].
    + assert (n = 0%nat) as -> by lia. reflexivity.
    + cbn [utf8_take]. rewrite C. destruct n as [|n]; [reflexivity|].
      rewrite IH by lia. reflexivity.
Qed.

(** ** Item tables *)

Lemma items_loop_rows acc items rows :
  items_loop acc items = Ok rows ->
  exists new_rows,
    rows = acc ++ new_rows /\ Forall2 (fun item row => item_row item = Ok row) items new_rows.
Proof.
  revert acc. induction items as [|item items IH]; intros acc; simpl.
  - intros [= <-]. exists []. rewrite app_nil_r. auto.
  - intros H. apply bind_Ok in H as (row & Hrow & H).
    apply IH in H as (new_rows & -> & F).
    exists (row :: new_rows). rewrite <- app_assoc. auto.
Qed.

Lemma items_block_shape items style b :
  items_block items style = Ok b ->
  match items with
  | [] => b = []
  | _ :: _ =>
      exists rows,
        b = [Table (items_header :: rows) items_colWidths style] /\
        Forall2 (fun item row => item_row item = Ok row) items rows
  end.
Proof.
  unfold items_block. destruct items as [|item items]; simpl py_truthy.
  - congruence.
  - intros H. apply bind_Ok in H as (rows & Hrows & [= <-]).
    apply items_loop_rows in Hrows as (new_rows & -> & F). eauto.
Qed.

(** ** The call *)

Lemma generate_returns now w o n oi ni path ret w' :
  generate_split_receipt_pdf now w o n oi ni path = Ok (ret, w') <->
  exists story,
    build_story now o n oi ni = Ok story /\
    writable w path = true /\
    ret = path /\
    w' = {| writable := writable w;
            files := <[path := (template path, story)]> (files w);
            stdout := stdout w ++ ["✅ PDF generated: " +:+ path] |}.
Proof.
  unfold generate_split_receipt_pdf, doc_build, print. cbv zeta. simpl filename. split.
  - intros H. apply bind_Ok in H as (story & Hs & H).
    destruct (writable w path); [|discriminate]. simpl in H.
    injection H as <- <-. eauto.
  - intros (story & -> & -> & -> & ->). reflexivity.
Qed.

Lemma generate_story now w o n oi ni path ret w' :
  generate_split_receipt_pdf now w o n oi ni path = Ok (ret, w') ->
  exists story, story_at w' path = Some story /\ story_parts now o n oi ni story.
Proof.
  intros (story & Hs & _ & _ & ->)%generate_returns.
  exists story. split; [|apply build_story_parts, Hs].
  unfold story_at. simpl. rewrite lookup_insert_eq. reflexivity.
Qed.

(** ** The shape of the assembled story *)

Section Assembled.
Variables (stamp : string) (vendor date : pyval) (original_total : string)
  (receipt_id : pyval) (a_block : list block) (a_total : string)
  (category : pyval) (deductible : string) (b_block : list block) (b_total : string)
  (sum_a sum_b sum_total : string) (id16_a id16_b : pyval).

Local Abbreviation story :=
  (assemble stamp vendor date original_total receipt_id a_block a_total
     category deductible b_block b_total sum_a sum_b sum_total id16_a id16_b).

Local Abbreviation info :=
  [ [VStr "Vendor:"; vendor];
    [VStr "Date:"; date];
    [VStr "Original Total:"; VStr (original_total +:+ " CAD")];
    [VStr "Receipt ID:"; receipt_id] ].

Local Abbreviation summary :=
  [ [VStr ""; VStr "Receipt A"; VStr "Receipt B"; VStr "Total"];
    [VStr "Subtotal + Tax"; VStr sum_a; VStr sum_b; VStr sum_total];
    [VStr "Tax Category"; VStr "Office Supplies"; category; VStr "—"];
    [VStr "Deductibility"; VStr "100%"; VStr deductible; VStr "—"] ].

Lemma assemble_tables : tables story = info :: tables a_block ++ tables b_block ++ [summary].
Proof.
  unfold assemble, tables. rewrite !flat_map_app. reflexivity.
Qed.

Lemma assemble_first_table : head (tables story) = Some info.
Proof. rewrite assemble_tables. reflexivity. Qed.

Lemma assemble_last_table : last (tables story) = Some summary.
Proof.
  rewrite assemble_tables, (app_assoc (tables a_block)), app_comm_cons. apply last_snoc.
Qed.

Lemma assemble_last :
  last story = Some (Paragraph (footer_text id16_a id16_b) body_style).
Proof.
  unfold assemble. rewrite !last_app. reflexivity.
Qed.

Lemma assemble_receipt_a_label :
  story !! 10%nat = Some (Paragraph "<b>Receipt A: Office Supplies (100% Deductible)</b>" body_style).
Proof. reflexivity. Qed.

Lemma assemble_stamp : story !! 1%nat = Some (Paragraph ("Generated: " +:+ stamp) body_style).
Proof. reflexivity. Qed.

Lemma assemble_In_a_total :
  In (Paragraph ("<b>Receipt A Total: " +:+ a_total +:+ " CAD</b>") body_style) story.
Proof. unfold assemble. rewrite !in_app_iff. simpl. tauto. Qed.

Lemma assemble_In_b_total :
  In (Paragraph ("<b>Receipt B Total: " +:+ b_total +:+ " CAD</b>") body_style) story.
Proof. unfold assemble. rewrite !in_app_iff. simpl. tauto. Qed.

Lemma assemble_In_b_label :
  In (Paragraph ("<b>Receipt B: " +:+ py_format category +:+ " (" +:+ deductible +:+ " Deductible)</b>")
        body_style) story.
Proof. unfold assemble. rewrite !in_app_iff. simpl. tauto. Qed.

Lemma assemble_In_b_treatment :
  In (Paragraph ("Tax Treatment: " +:+ deductible +:+ " deductible (" +:+ py_format category +:+ ")")
        body_style) story.
Proof. unfold assemble. rewrite !in_app_iff. simpl. tauto. Qed.

(** A table of the story is the information table, the summary table or a
    table of one of the two item blocks. *)
Lemma assemble_In_table data widths style :
  In (Table data widths style) story ->
  style = original_table_style \/ style = summary_table_style \/
  In (Table data widths style) a_block \/ In (Table data widths style) b_block.
Proof.
  unfold assemble. rewrite !in_app_iff. simpl.
  intros [H|[H|[H|[H|H]]]]; auto;
    repeat (destruct H as [H|H]; [try discriminate; injection H as _ _ <-; auto|]);
    contradiction.
Qed.

Lemma assemble_In_a_block b : In b a_block -> In b story.
Proof. unfold assemble. rewrite !in_app_iff. tauto. Qed.

Lemma assemble_In_b_block b : In b b_block -> In b story.
Proof. unfold assemble. rewrite !in_app_iff. tauto. Qed.

End Assembled.

(** ** The properties *)

(** C1. When the call returns, the deductibility written in the Receipt B
    label, in the Receipt B tax-treatment line and in the summary table is
    one text [ded]; it is [50%] exactly when the category (the value of
    [suggested_category], or its default) has [Meal] as a substring, compared
    character by character, and [100%] exactly when it has not.  So
    [Meals & Entertainment] gives [50%] and [meals] gives [100%]. *)
Theorem C1_deductibility_by_Meal_substring now w o n oi ni path ret w' :
  generate_split_receipt_pdf now w o n oi ni path = Ok (ret, w') ->
  exists story cat ded summary,
    story_at w' path = Some story /\
    get n "suggested_category" (VStr "Other Expenses") = VStr cat /\
    (ded = "50%" <-> substring_of "Meal" cat) /\
    (ded = "100%" <-> ~ substring_of "Meal" cat) /\
    In (Paragraph ("<b>Receipt B: " +:+ cat +:+ " (" +:+ ded +:+ " Deductible)</b>") body_style)
      story /\
    In (Paragraph ("Tax Treatment: " +:+ ded +:+ " deductible (" +:+ cat +:+ ")") body_style)
      story /\
    last (tables story) = Some summary /\
    summary !! 3%nat = Some [VStr "Deductibility"; VStr "100%"; VStr ded; VStr "—"] /\
    (cat = "Meals & Entertainment" -> ded = "50%") /\
    (cat = "meals" -> ded = "100%").
Proof.
  intros H. apply generate_story in H as (story & Hat & P).
  destruct P as (a_total & b_total & sum_total & oid & nid & cat & a_block & b_block & grand &
                 _ & _ & _ & _ & _ & _ & Hcat & _ & _ & ->).
  eexists _, cat, (if str_contains "Meal" cat then "50%" else "100%"), _.
  split; [exact Hat|]. split; [exact Hcat|].
  split; [|split].
  { rewrite <- str_contains_spec. destruct (str_contains "Meal" cat); split; congruence. }
  { rewrite <- str_contains_false. destruct (str_contains "Meal" cat); split; congruence. }
  split; [apply (assemble_In_b_label _ _ _ _ _ _ _ (VStr cat))|].
  split; [apply (assemble_In_b_treatment _ _ _ _ _ _ _ (VStr cat))|].
  split; [apply assemble_last_table|].
  split; [reflexivity|].
  split; intros ->; reflexivity.
Qed.

Lemma C1_witness :
  exists w',
    generate_split_receipt_pdf sample_now sample_world sample_original sample_new
      [sample_item] [] "out.pdf" = Ok ("out.pdf", w') /\
    exists story summary,
      story_at w' "out.pdf" = Some story /\
      In (Paragraph "<b>Receipt B: Meals & Entertainment (50% Deductible)</b>" body_style) story /\
      In (Paragraph "Tax Treatment: 50% deductible (Meals & Entertainment)" body_style) story /\
      last (tables story) = Some summary /\
      summary !! 3%nat = Some [VStr "Deductibility"; VStr "100%"; VStr "50%"; VStr "—"].
Proof.
  eexists. split; [vm_compute; reflexivity|].
  edestruct (C1_deductibility_by_Meal_substring sample_now sample_world sample_original
               sample_new [sample_item] [] "out.pdf")
    as (story & cat & ded & summary & Hat & Hcat & _ & _ & H1 & H2 & H3 & H4 & H5 & _).
  { vm_compute. reflexivity. }
  injection Hcat as <-. rewrite (H5 eq_refl) in *.
  exists story, summary. repeat split; assumption.
Defined.

(** C2, as amended.  When the call returns and the two totals are the
    integers [a] and [b] with [|a + b| <= 100 * 2^46] (7036874417766400
    cents), the grand total of the summary table is exactly [a + b] cents
    written as [$], the dollars, a point and two digits; the two subtotals
    beside it are exact under the same bound on [a] and on [b].  Totals of
    1050 and 2575 cents read [$10.50], [$25.75] and [$36.25]. *)
Theorem C2_grand_total_exact_below_2p46_dollars now w o n oi ni path ret w' a b :
  generate_split_receipt_pdf now w o n oi ni path = Ok (ret, w') ->
  get o "total_cents" (VInt 0) = VInt a ->
  get n "total_cents" (VInt 0) = VInt b ->
  Z.abs (a + b) <= 100 * 2 ^ 46 ->
  exists story summary sum_a sum_b,
    story_at w' path = Some story /\
    last (tables story) = Some summary /\
    summary !! 1%nat =
      Some [VStr "Subtotal + Tax"; VStr sum_a; VStr sum_b; VStr (exact_dollars (a + b))] /\
    (Z.abs a <= 100 * 2 ^ 46 -> sum_a = exact_dollars a) /\
    (Z.abs b <= 100 * 2 ^ 46 -> sum_b = exact_dollars b) /\
    exact_dollars 1050 = "$10.50" /\
    exact_dollars 2575 = "$25.75" /\
    exact_dollars (1050 + 2575) = "$36.25".
Proof.
  intros H Ea Eb Hab. apply generate_story in H as (story & Hat & P).
  destruct P as (a_total & b_total & sum_total & oid & nid & cat & a_block & b_block & grand &
                 Ha & Hb & Hg & Hs & _ & _ & _ & _ & _ & ->).
  rewrite Ea in Ha, Hg. rewrite Eb in Hb, Hg. injection Hg as <-.
  rewrite fmt_dollars_exact in Hs by exact Hab. injection Hs as <-.
  eexists _, _, a_total, b_total.
  split; [exact Hat|]. split; [apply assemble_last_table|]. split; [reflexivity|].
  split; [|split].
  - intros Ba. rewrite fmt_dollars_exact in Ha by exact Ba. congruence.
  - intros Bb. rewrite fmt_dollars_exact in Hb by exact Bb. congruence.
  - repeat split; vm_compute; reflexivity.
Qed.

Lemma C2_witness :
  exists w',
    generate_split_receipt_pdf sample_now sample_world sample_original sample_new
      [sample_item] [] "out.pdf" = Ok ("out.pdf", w') /\
    exists story summary,
      story_at w' "out.pdf" = Some story /\
      last (tables story) = Some summary /\
      summary !! 1%nat =
        Some [VStr "Subtotal + Tax"; VStr "$10.50"; VStr "$25.75"; VStr "$36.25"].
Proof.
  eexists. split; [vm_compute; reflexivity|].
  edestruct (C2_grand_total_exact_below_2p46_dollars sample_now sample_world sample_original
               sample_new [sample_item] [] "out.pdf")
    with (a := 1050) (b := 2575)
    as (story & summary & sum_a & sum_b & Hat & Hl & Hr & Ha & Hb & E1 & E2 & E3).
  { vm_compute. reflexivity. }
  { vm_compute. reflexivity. }
  { vm_compute. reflexivity. }
  { vm_compute. discriminate. }
  rewrite Ha in Hr by (vm_compute; discriminate).
  rewrite Hb in Hr by (vm_compute; discriminate).
  rewrite E1, E2, E3 in Hr.
  exists story, summary. repeat split; assumption.
Defined.

(** C2 as stated fails: with totals of 7036874417766400 cents and 1 cent the
    call returns, and the grand total of the summary table reads
    [$70368744177664.02], one cent more than the sum of the two totals. *)
Lemma C2_counterexample :
  let o : gmap string pyval := <["total_cents" := VInt 7036874417766400]> ∅ in
  let n : gmap string pyval := <["total_cents" := VInt 1]> ∅ in
  exists w' story summary,
    generate_split_receipt_pdf sample_now sample_world o n [] [] "out.pdf" = Ok ("out.pdf", w') /\
    story_at w' "out.pdf" = Some story /\
    last (tables story) = Some summary /\
    cell summary 1 3 = Some (VStr "$70368744177664.02") /\
    exact_dollars (7036874417766400 + 1) = "$70368744177664.01" /\
    cell summary 1 3 <> Some (VStr (exact_dollars (7036874417766400 + 1))).
Proof.
  cbv zeta. eexists _, _, _.
  split; [vm_compute; reflexivity|].
  split; [vm_compute; reflexivity|].
  split; [vm_compute; reflexivity|].
  split; [vm_compute; reflexivity|].
  split; [vm_compute; reflexivity|].
  vm_compute. discriminate.
Qed.

Lemma get_absent (d : gmap string pyval) k default : d !! k = None -> get d k default = default.
Proof. unfold get. intros ->. reflexivity. Qed.

Lemma get_present (d : gmap string pyval) k v default : d !! k = Some v -> get d k default = v.
Proof. unfold get. intros ->. reflexivity. Qed.

Lemma get_insert_eq (d : gmap string pyval) k v default : get (<[k := v]> d) k default = v.
Proof. unfold get. rewrite lookup_insert_eq. reflexivity. Qed.

Lemma get_insert_ne (d : gmap string pyval) k k' v default :
  k <> k' -> get (<[k := v]> d) k' default = get d k' default.
Proof. intros H. unfold get. rewrite lookup_insert_ne by exact H. reflexivity. Qed.

Lemma generate_echo now w o n oi ni path ret w' :
  generate_split_receipt_pdf now w o n oi ni path = Ok (ret, w') -> ret = path.
Proof. intros (story & _ & _ & -> & _)%generate_returns. reflexivity. Qed.

(** C3 as stated fails: two receipts without any key, so without
    [total_cents], and no items; the call returns the path and the file holds
    a story, no exception is raised. *)
Lemma C3_counterexample :
  (∅ : gmap string pyval) !! "total_cents" = None /\
  exists w' story,
    generate_split_receipt_pdf sample_now sample_world ∅ ∅ [] [] "out.pdf" = Ok ("out.pdf", w') /\
    story_at w' "out.pdf" = Some story /\
    forall e, generate_split_receipt_pdf sample_now sample_world ∅ ∅ [] [] "out.pdf" <> Raise e.
Proof.
  split; [reflexivity|]. eexists _, _.
  split; [vm_compute; reflexivity|].
  split; [vm_compute; reflexivity|].
  intros e. vm_compute. discriminate.
Qed.

(** C3, as amended.  An absent [total_cents] is read as 0 and the formatting
    step raises nothing for it: the amount formats to [$0.00], the call has
    the outcome it has with [total_cents] set to 0 (the same result or the
    same exception), and when the call returns, for an original receipt
    without [total_cents] the Original Total, the Receipt A total line and
    the Receipt A subtotal read [$0.00], for a new receipt without it the
    Receipt B total line and subtotal do. *)
Theorem C3_absent_total_cents_reads_zero now w o n oi ni path :
  (o !! "total_cents" = None ->
   fmt_dollars (get o "total_cents" (VInt 0)) = Ok "$0.00" /\
   generate_split_receipt_pdf now w o n oi ni path =
     generate_split_receipt_pdf now w (<["total_cents" := VInt 0]> o) n oi ni path /\
   forall ret w',
     generate_split_receipt_pdf now w o n oi ni path = Ok (ret, w') ->
     exists story info summary,
       story_at w' path = Some story /\
       head (tables story) = Some info /\
       last (tables story) = Some summary /\
       cell info 2 1 = Some (VStr "$0.00 CAD") /\
       In (Paragraph "<b>Receipt A Total: $0.00 CAD</b>" body_style) story /\
       cell summary 1 1 = Some (VStr "$0.00")) /\
  (n !! "total_cents" = None ->
   fmt_dollars (get n "total_cents" (VInt 0)) = Ok "$0.00" /\
   generate_split_receipt_pdf now w o n oi ni path =
     generate_split_receipt_pdf now w o (<["total_cents" := VInt 0]> n) oi ni path /\
   forall ret w',
     generate_split_receipt_pdf now w o n oi ni path = Ok (ret, w') ->
     exists story summary,
       story_at w' path = Some story /\
       last (tables story) = Some summary /\
       In (Paragraph "<b>Receipt B Total: $0.00 CAD</b>" body_style) story /\
       cell summary 1 2 = Some (VStr "$0.00")).
Proof.
  split; intros E.
  - split; [rewrite (get_absent _ _ _ E); reflexivity|]. split.
    + unfold generate_split_receipt_pdf, build_story. cbv zeta.
      rewrite !get_insert_eq, !(get_absent o "total_cents" _ E).
      rewrite !(get_insert_ne o "total_cents") by discriminate. reflexivity.
    + intros ret w' H. apply generate_story in H as (story & Hat & P).
      destruct P as (a_total & b_total & sum_total & oid & nid & cat & a_block & b_block &
                     grand & Ha & _ & _ & _ & _ & _ & _ & _ & _ & ->).
      rewrite (get_absent _ _ _ E) in Ha.
      change (fmt_dollars (VInt 0)) with (@Ok string "$0.00") in Ha. injection Ha as <-.
      eexists _, _, _.
      split; [exact Hat|]. split; [apply assemble_first_table|].
      split; [apply assemble_last_table|]. split; [reflexivity|].
      split; [apply (assemble_In_a_total _ _ _ _ _ _ "$0.00") | reflexivity].
  - split; [rewrite (get_absent _ _ _ E); reflexivity|]. split.
    + unfold generate_split_receipt_pdf, build_story. cbv zeta.
      rewrite !get_insert_eq, !(get_absent n "total_cents" _ E).
      rewrite !(get_insert_ne n "total_cents") by discriminate. reflexivity.
    + intros ret w' H. apply generate_story in H as (story & Hat & P).
      destruct P as (a_total & b_total & sum_total & oid & nid & cat & a_block & b_block &
                     grand & _ & Hb & _ & _ & _ & _ & _ & _ & _ & ->).
      rewrite (get_absent _ _ _ E) in Hb.
      change (fmt_dollars (VInt 0)) with (@Ok string "$0.00") in Hb. injection Hb as <-.
      eexists _, _.
      split; [exact Hat|]. split; [apply assemble_last_table|].
      split; [apply (assemble_In_b_total _ _ _ _ _ _ _ _ _ _ "$0.00") | reflexivity].
Qed.

Lemma C3_witness :
  exists w' story info summary,
    generate_split_receipt_pdf sample_now sample_world ∅ ∅ [] [] "out.pdf" = Ok ("out.pdf", w') /\
    generate_split_receipt_pdf sample_now sample_world ∅ ∅ [] [] "out.pdf" =
      generate_split_receipt_pdf sample_now sample_world (<["total_cents" := VInt 0]> ∅) ∅
        [] [] "out.pdf" /\
    story_at w' "out.pdf" = Some story /\
    head (tables story) = Some info /\
    last (tables story) = Some summary /\
    cell info 2 1 = Some (VStr "$0.00 CAD") /\
    In (Paragraph "<b>Receipt A Total: $0.00 CAD</b>" body_style) story /\
    In (Paragraph "<b>Receipt B Total: $0.00 CAD</b>" body_style) story /\
    cell summary 1 1 = Some (VStr "$0.00") /\
    cell summary 1 2 = Some (VStr "$0.00").
Proof.
  destruct (C3_absent_total_cents_reads_zero sample_now sample_world ∅ ∅ [] [] "out.pdf")
    as [Ho Hn].
  destruct (Ho eq_refl) as (_ & Eq & Ko). destruct (Hn eq_refl) as (_ & _ & Kn).
  destruct (generate_split_receipt_pdf sample_now sample_world ∅ ∅ [] [] "out.pdf")
    as [[ret w']|e] eqn:G; [|vm_compute in G; discriminate G].
  apply generate_echo in G as R. subst ret.
  destruct (Ko _ _ eq_refl) as (story & info & summary & Hat & Hh & Hl & A1 & A2 & A3).
  destruct (Kn _ _ eq_refl) as (story' & summary' & Hat' & Hl' & B1 & B2).
  assert (story' = story) as -> by congruence.
  assert (summary' = summary) as -> by congruence.
  exists w', story, info, summary.
  split; [reflexivity|]. split; [exact Eq|]. repeat split; assumption.
Defined.

(** C4 as stated fails: every field of the two receipts has its type and the
    path is writable, yet the call raises [OverflowError], at the Original
    Total of line 83, for a [total_cents] of [10^311]. *)
Lemma C4_counterexample :
  let o : gmap string pyval := <["total_cents" := VInt (10 ^ 311)]> sample_original in
  o !! "id" = Some (VStr "0123456789abcdefghij") /\
  o !! "vendor" = Some (VStr "Staples") /\
  o !! "receipt_date" = Some (VStr "2026-10-31") /\
  o !! "total_cents" = Some (VInt (10 ^ 311)) /\
  writable sample_world "out.pdf" = true /\
  generate_split_receipt_pdf sample_now sample_world o sample_new [] [] "out.pdf" =
    Raise OverflowError.
Proof.
  cbv zeta.
  split; [vm_compute; reflexivity|]. split; [vm_compute; reflexivity|].
  split; [vm_compute; reflexivity|]. split; [vm_compute; reflexivity|].
  split; [vm_compute; reflexivity|]. vm_compute. reflexivity.
Qed.

(** C4, as amended.  When the call returns, what it returns is the
    [output_path] it was given, and the file at that path holds the page
    set-up and the story of the call. *)
Theorem C4_returns_output_path now w o n oi ni path ret w' :
  generate_split_receipt_pdf now w o n oi ni path = Ok (ret, w') ->
  ret = path /\
  exists story,
    build_story now o n oi ni = Ok story /\
    files w' !! path = Some (template path, story).
Proof.
  intros (story & Hs & _ & -> & ->)%generate_returns.
  split; [reflexivity|]. exists story. split; [exact Hs|]. apply lookup_insert_eq.
Qed.

Lemma C4_witness :
  exists w' story,
    generate_split_receipt_pdf sample_now sample_world sample_original sample_new
      [sample_item] [sample_item] "out.pdf" = Ok ("out.pdf", w') /\
    files w' !! "out.pdf" = Some (template "out.pdf", story).
Proof.
  destruct (generate_split_receipt_pdf sample_now sample_world sample_original sample_new
              [sample_item] [sample_item] "out.pdf") as [[ret w']|e] eqn:G;
    [|vm_compute in G; discriminate G].
  destruct (C4_returns_output_path _ _ _ _ _ _ _ _ _ G) as (-> & story & _ & F).
  exists w', story. split; [reflexivity | exact F].
Defined.

Lemma append_assoc s t u : (s +:+ t) +:+ u = s +:+ t +:+ u.
Proof. induction s as [|c s IH]; [reflexivity|]. rewrite !append_cons, IH. reflexivity. Qed.

Lemma items_block_tables items style b :
  items_block items style = Ok b ->
  length (tables b) = (if py_truthy items then 1 else 0)%nat /\
  forall data widths style', In (Table data widths style') b -> items <> [] /\ style' = style.
Proof.
  intros H. apply items_block_shape in H. destruct items as [|item items].
  - subst b. split; [reflexivity | intros ? ? ? []].
  - destruct H as (rows & -> & _). split; [reflexivity|].
    intros data widths style' [[= _ _ <-]|[]]. split; [discriminate | reflexivity].
Qed.

(** C5.  When the call returns, the bold total line of each receipt is in the
    story and its amount is the formatted [total_cents] of the receipt record;
    with an empty [original_items] the story has no table in the style of the
    Receipt A item table, with an empty [new_items] none in the style of the
    Receipt B item table, and the story has as many tables as the information
    table, the summary table and one table per non-empty item list. *)
Theorem C5_empty_items_no_table_total_from_record now w o n oi ni path ret w' :
  generate_split_receipt_pdf now w o n oi ni path = Ok (ret, w') ->
  exists story a_total b_total,
    story_at w' path = Some story /\
    fmt_dollars (get o "total_cents" (VInt 0)) = Ok a_total /\
    fmt_dollars (get n "total_cents" (VInt 0)) = Ok b_total /\
    In (Paragraph ("<b>Receipt A Total: " +:+ a_total +:+ " CAD</b>") body_style) story /\
    In (Paragraph ("<b>Receipt B Total: " +:+ b_total +:+ " CAD</b>") body_style) story /\
    (oi = [] -> forall data widths, ~ In (Table data widths original_items_style) story) /\
    (ni = [] -> forall data widths, ~ In (Table data widths new_items_style) story) /\
    length (tables story) =
      (2 + (if py_truthy oi then 1 else 0) + (if py_truthy ni then 1 else 0))%nat.
Proof.
  intros H. apply generate_story in H as (story & Hat & P).
  destruct P as (a_total & b_total & sum_total & oid & nid & cat & a_block & b_block & grand &
                 Ha & Hb & _ & _ & _ & _ & _ & Hab & Hbb & ->).
  destruct (items_block_tables _ _ _ Hab) as [La Ta].
  destruct (items_block_tables _ _ _ Hbb) as [Lb Tb].
  eexists _, a_total, b_total.
  split; [exact Hat|]. split; [exact Ha|]. split; [exact Hb|].
  split; [apply assemble_In_a_total|]. split; [apply assemble_In_b_total|].
  split; [|split].
  - intros -> data widths [E|[E|[I|I]]]%assemble_In_table.
    + discriminate E.
    + discriminate E.
    + apply Ta in I as [I _]. contradiction.
    + apply Tb in I as [_ E]. discriminate E.
  - intros -> data widths [E|[E|[I|I]]]%assemble_In_table.
    + discriminate E.
    + discriminate E.
    + apply Ta in I as [_ E]. discriminate E.
    + apply Tb in I as [I _]. contradiction.
  - rewrite assemble_tables. cbn [length]. rewrite !length_app, La, Lb. simpl. lia.
Qed.

Lemma C5_witness :
  exists w' story,
    generate_split_receipt_pdf sample_now sample_world sample_original sample_new
      [] [] "out.pdf" = Ok ("out.pdf", w') /\
    story_at w' "out.pdf" = Some story /\
    In (Paragraph "<b>Receipt A Total: $10.50 CAD</b>" body_style) story /\
    In (Paragraph "<b>Receipt B Total: $25.75 CAD</b>" body_style) story /\
    (forall data widths, ~ In (Table data widths original_items_style) story) /\
    (forall data widths, ~ In (Table data widths new_items_style) story) /\
    length (tables story) = 2%nat.
Proof.
  eexists.
  edestruct (C5_empty_items_no_table_total_from_record sample_now sample_world sample_original
               sample_new [] [] "out.pdf")
    as (story & a_total & b_total & Hat & Ha & Hb & A & B & Na & Nb & L).
  { vm_compute. reflexivity. }
  vm_compute in Ha. injection Ha as <-. vm_compute in Hb. injection Hb as <-.
  exists story. split; [reflexivity|].
  split; [exact Hat|]. split; [exact A|]. split; [exact B|].
  split; [exact (Na eq_refl)|]. split; [exact (Nb eq_refl)|]. exact L.
Defined.

Lemma footer_text_original_id t u :
  substring_of ("Original Receipt ID: " +:+ t +:+ "...") (footer_text (VStr t) (VStr u)).
Proof.
  unfold substring_of, footer_text, py_format.
  eexists (nl +:+ "    <para alignment=" +:+ dq +:+ "center" +:+ dq +:+ " fontSize=" +:+ dq +:+
           "8" +:+ dq +:+ " textColor=" +:+ dq +:+ "#9ca3af" +:+ dq +:+ ">" +:+ nl +:+
           "    This document was automatically generated by the Receipt Management System.<br/>"
           +:+ nl +:+ "    "), _.
  rewrite !append_assoc. reflexivity.
Qed.

Lemma footer_text_new_id t u :
  substring_of ("New Receipt ID: " +:+ u +:+ "...") (footer_text (VStr t) (VStr u)).
Proof.
  unfold substring_of, footer_text, py_format.
  eexists (nl +:+ "    <para alignment=" +:+ dq +:+ "center" +:+ dq +:+ " fontSize=" +:+ dq +:+
           "8" +:+ dq +:+ " textColor=" +:+ dq +:+ "#9ca3af" +:+ dq +:+ ">" +:+ nl +:+
           "    This document was automatically generated by the Receipt Management System.<br/>"
           +:+ nl +:+ "    Original Receipt ID: " +:+ t +:+ "...<br/>" +:+ nl +:+ "    "), _.
  rewrite !append_assoc. reflexivity.
Qed.

(** C6.  When the call returns, the id of the original receipt (the empty
    string when absent) is in the story twice: cut to its first 8 characters,
    counted as code points,
    and followed by [...] in the last row of the information table, and cut
    to its first 16 characters and followed by [...] in the footer, the last
    block, next to the id of the new receipt cut to 16 characters.  An absent
    or empty id leaves just [...]. *)
Theorem C6_receipt_id_cut_to_8_and_16 now w o n oi ni path ret w' :
  generate_split_receipt_pdf now w o n oi ni path = Ok (ret, w') ->
  exists story info oid nid t8 t16 u16,
    story_at w' path = Some story /\
    get o "id" (VStr "") = VStr oid /\
    get n "id" (VStr "") = VStr nid /\
    first_chars 8 oid t8 /\
    first_chars 16 oid t16 /\
    first_chars 16 nid u16 /\
    head (tables story) = Some info /\
    info !! 3%nat = Some [VStr "Receipt ID:"; VStr (t8 +:+ "...")] /\
    last story = Some (Paragraph (footer_text (VStr t16) (VStr u16)) body_style) /\
    substring_of ("Original Receipt ID: " +:+ t16 +:+ "...") (footer_text (VStr t16) (VStr u16)) /\
    substring_of ("New Receipt ID: " +:+ u16 +:+ "...") (footer_text (VStr t16) (VStr u16)) /\
    (o !! "id" = None \/ oid = "" -> t8 +:+ "..." = "..." /\ t16 +:+ "..." = "...") /\
    (n !! "id" = None \/ nid = "" -> u16 +:+ "..." = "...").
Proof.
  intros H. apply generate_story in H as (story & Hat & P).
  destruct P as (a_total & b_total & sum_total & oid & nid & cat & a_block & b_block & grand &
                 _ & _ & _ & _ & Hoid & Hnid & _ & _ & _ & ->).
  eexists _, _, oid, nid, (utf8_take 8 oid), (utf8_take 16 oid), (utf8_take 16 nid).
  split; [exact Hat|]. split; [exact Hoid|]. split; [exact Hnid|].
  split; [apply utf8_take_first_chars|].
  split; [apply utf8_take_first_chars|].
  split; [apply utf8_take_first_chars|].
  split; [apply assemble_first_table|].
  split; [reflexivity|].
  split; [apply assemble_last|].
  split; [apply footer_text_original_id|].
  split; [apply footer_text_new_id|].
  split.
  - intros [E|E].
    + rewrite (get_absent _ _ _ E) in Hoid. injection Hoid as <-. split; reflexivity.
    + subst oid. split; reflexivity.
  - intros [E|E].
    + rewrite (get_absent _ _ _ E) in Hnid. injection Hnid as <-. reflexivity.
    + subst nid. reflexivity.
Qed.

Lemma C6_witness :
  exists w' story info,
    generate_split_receipt_pdf sample_now sample_world
      (<["id" := VStr "Zoë–0123456789abcdefghij"]> ∅) sample_new [sample_item] [] "out.pdf" =
      Ok ("out.pdf", w') /\
    story_at w' "out.pdf" = Some story /\
    head (tables story) = Some info /\
    info !! 3%nat = Some [VStr "Receipt ID:"; VStr "Zoë–0123..."] /\
    last story =
      Some (Paragraph (footer_text (VStr "Zoë–0123456789ab") (VStr "fedcba9876543210")) body_style).
Proof.
  eexists.
  edestruct (C6_receipt_id_cut_to_8_and_16 sample_now sample_world
               (<["id" := VStr "Zoë–0123456789abcdefghij"]> ∅) sample_new [sample_item] []
               "out.pdf")
    as (story & info & oid & nid & t8 & t16 & u16 & Hat & Hoid & Hnid & F8 & F16 & G16 &
        Hh & Hi & Hl & _).
  { vm_compute. reflexivity. }
  exists story, info. split; [reflexivity|]. split; [exact Hat|]. split; [exact Hh|].
  vm_compute in Hat. injection Hat as <-.
  vm_compute in Hh. injection Hh as <-.
  split; vm_compute; reflexivity.
Defined.

(** C7.  When the call returns: a receipt without [vendor] has [Unknown] in
    the vendor row of the information table, one without [receipt_date] has
    [Not specified] in the date row, and a new receipt without
    [suggested_category] has [Other Expenses] as its category in the Receipt B
    label, in the tax-treatment line and in the summary table. *)
Theorem C7_defaults_of_absent_fields now w o n oi ni path ret w' :
  generate_split_receipt_pdf now w o n oi ni path = Ok (ret, w') ->
  exists story info summary,
    story_at w' path = Some story /\
    head (tables story) = Some info /\
    last (tables story) = Some summary /\
    (o !! "vendor" = None -> info !! 0%nat = Some [VStr "Vendor:"; VStr "Unknown"]) /\
    (o !! "receipt_date" = None -> info !! 1%nat = Some [VStr "Date:"; VStr "Not specified"]) /\
    (n !! "suggested_category" = None ->
       In (Paragraph "<b>Receipt B: Other Expenses (100% Deductible)</b>" body_style) story /\
       In (Paragraph "Tax Treatment: 100% deductible (Other Expenses)" body_style) story /\
       summary !! 2%nat =
         Some [VStr "Tax Category"; VStr "Office Supplies"; VStr "Other Expenses"; VStr "—"] /\
       summary !! 3%nat = Some [VStr "Deductibility"; VStr "100%"; VStr "100%"; VStr "—"]).
Proof.
  intros H. apply generate_story in H as (story & Hat & P).
  destruct P as (a_total & b_total & sum_total & oid & nid & cat & a_block & b_block & grand &
                 _ & _ & _ & _ & _ & _ & Hcat & _ & _ & ->).
  eexists _, _, _.
  split; [exact Hat|]. split; [apply assemble_first_table|]. split; [apply assemble_last_table|].
  split; [|split].
  - intros E. rewrite (get_absent _ _ _ E). reflexivity.
  - intros E. rewrite (get_absent _ _ _ E). reflexivity.
  - intros E. rewrite (get_absent _ _ _ E) in Hcat. injection Hcat as <-.
    split; [apply (assemble_In_b_label _ _ _ _ _ _ _ (VStr "Other Expenses") "100%")|].
    split; [apply (assemble_In_b_treatment _ _ _ _ _ _ _ (VStr "Other Expenses") "100%")|].
    split; reflexivity.
Qed.

Lemma C7_witness :
  exists w' story info summary,
    generate_split_receipt_pdf sample_now sample_world ∅ ∅ [sample_item] [] "out.pdf" =
      Ok ("out.pdf", w') /\
    story_at w' "out.pdf" = Some story /\
    head (tables story) = Some info /\
    last (tables story) = Some summary /\
    info !! 0%nat = Some [VStr "Vendor:"; VStr "Unknown"] /\
    info !! 1%nat = Some [VStr "Date:"; VStr "Not specified"] /\
    In (Paragraph "<b>Receipt B: Other Expenses (100% Deductible)</b>" body_style) story /\
    summary !! 2%nat =
      Some [VStr "Tax Category"; VStr "Office Supplies"; VStr "Other Expenses"; VStr "—"].
Proof.
  eexists.
  edestruct (C7_defaults_of_absent_fields sample_now sample_world ∅ ∅ [sample_item] [] "out.pdf")
    as (story & info & summary & Hat & Hh & Hl & V & D & C).
  { vm_compute. reflexivity. }
  destruct (C eq_refl) as (C1 & _ & C3 & _).
  exists story, info, summary. split; [reflexivity|].
  split; [exact Hat|]. split; [exact Hh|]. split; [exact Hl|].
  split; [exact (V eq_refl)|]. split; [exact (D eq_refl)|]. split; [exact C1 | exact C3].
Defined.

(** C8.  When the call returns, the block after the heading of the split
    section is the Receipt A label, the same text whatever the original
    receipt holds, and the Receipt B label is made of the category of the new
    receipt and of the deductibility that the rule gives for it. *)
Theorem C8_receipt_labels now w o n oi ni path ret w' :
  generate_split_receipt_pdf now w o n oi ni path = Ok (ret, w') ->
  exists story cat,
    story_at w' path = Some story /\
    story !! 10%nat =
      Some (Paragraph "<b>Receipt A: Office Supplies (100% Deductible)</b>" body_style) /\
    get n "suggested_category" (VStr "Other Expenses") = VStr cat /\
    In (Paragraph
          ("<b>Receipt B: " +:+ cat +:+ " (" +:+
           (if str_contains "Meal" cat then "50" else "100") +:+ "% Deductible)</b>")
          body_style) story.
Proof.
  intros H. apply generate_story in H as (story & Hat & P).
  destruct P as (a_total & b_total & sum_total & oid & nid & cat & a_block & b_block & grand &
                 _ & _ & _ & _ & _ & _ & Hcat & _ & _ & ->).
  eexists _, cat.
  split; [exact Hat|]. split; [apply assemble_receipt_a_label|]. split; [exact Hcat|].
  pose proof (assemble_In_b_label (strftime now) (get o "vendor" (VStr "Unknown"))
                (get o "receipt_date" (VStr "Not specified")) a_total
                (VStr (utf8_take 8 oid +:+ "...")) a_block a_total (VStr cat)
                (if str_contains "Meal" cat then "50%" else "100%") b_block b_total
                a_total b_total sum_total (VStr (utf8_take 16 oid))
                (VStr (utf8_take 16 nid))) as L.
  destruct (str_contains "Meal" cat); exact L.
Qed.

Lemma C8_witness :
  exists w' story,
    generate_split_receipt_pdf sample_now sample_world sample_original sample_new
      [sample_item] [] "out.pdf" = Ok ("out.pdf", w') /\
    story_at w' "out.pdf" = Some story /\
    story !! 10%nat =
      Some (Paragraph "<b>Receipt A: Office Supplies (100% Deductible)</b>" body_style) /\
    In (Paragraph "<b>Receipt B: Meals & Entertainment (50% Deductible)</b>" body_style) story.
Proof.
  eexists.
  edestruct (C8_receipt_labels sample_now sample_world sample_original sample_new
               [sample_item] [] "out.pdf")
    as (story & cat & Hat & A & Hcat & B).
  { vm_compute. reflexivity. }
  vm_compute in Hcat. injection Hcat as <-.
  exists story. split; [reflexivity|]. repeat split; assumption.
Defined.

(** ** The clock *)

(** The clock enters the story through the second block only. *)
Lemma build_story_clock t1 t2 o n oi ni :
  build_story t2 o n oi ni =
  match build_story t1 o n oi ni with
  | Ok story => Ok (<[1%nat := Paragraph ("Generated: " +:+ strftime t2) body_style]> story)
  | Raise e => Raise e
  end.
Proof.
  rewrite !build_story_flat_eq. unfold build_story_flat. cbv zeta.
  repeat case_bind. reflexivity.
Qed.

(** C9.  Two calls with the same arguments, at the clock readings [t1] and
    then [t2]: if the first raises, the second raises the same exception;
    if the first returns, the second returns the same path, and the file
    holds the same page set-up and a story of the same length whose blocks
    are those of the first story at every position but the second, where
    each story has the line of its own generation time. *)
Theorem C9_same_content_except_timestamp t1 t2 w o n oi ni path :
  match generate_split_receipt_pdf t1 w o n oi ni path with
  | Raise e => generate_split_receipt_pdf t2 w o n oi ni path = Raise e
  | Ok (ret1, w1) =>
      exists w2 story1 story2,
        generate_split_receipt_pdf t2 w1 o n oi ni path = Ok (ret1, w2) /\
        files w1 !! path = Some (template path, story1) /\
        files w2 !! path = Some (template path, story2) /\
        length story1 = length story2 /\
        (forall i, i <> 1%nat -> story1 !! i = story2 !! i) /\
        story1 !! 1%nat = Some (Paragraph ("Generated: " +:+ strftime t1) body_style) /\
        story2 !! 1%nat = Some (Paragraph ("Generated: " +:+ strftime t2) body_style)
  end.
Proof.
  destruct (generate_split_receipt_pdf t1 w o n oi ni path) as [[ret1 w1]|e] eqn:G.
  - apply generate_returns in G as (story1 & Hs1 & Hw & -> & ->).
    pose proof (build_story_clock t1 t2 o n oi ni) as Hs2. rewrite Hs1 in Hs2.
    apply build_story_parts in Hs1 as P.
    destruct P as (a_total & b_total & sum_total & oid & nid & cat & a_block & b_block & grand &
                   _ & _ & _ & _ & _ & _ & _ & _ & _ & E).
    eexists _, story1, _.
    split; [apply generate_returns; eexists; split; [exact Hs2|]; split; [exact Hw|];
            split; reflexivity|].
    split; [apply lookup_insert_eq|]. split; [apply lookup_insert_eq|].
    split; [symmetry; apply length_insert|].
    split; [intros i Hi; symmetry; apply list_lookup_insert_ne; congruence|].
    split; [rewrite E; apply assemble_stamp|].
    rewrite E. reflexivity.
  - unfold generate_split_receipt_pdf in *. cbv zeta in *.
    rewrite (build_story_clock t1 t2).
    destruct (build_story t1 o n oi ni) as [story1|e1]; cbn [bind] in *; [|exact G].
    unfold doc_build in *. simpl filename in *.
    destruct (writable w path); cbn [bind] in *; [discriminate G | exact G].
Qed.

Lemma C9_witness :
  exists w1 w2 story1 story2,
    generate_split_receipt_pdf sample_now sample_world sample_original sample_new
      [sample_item] [] "out.pdf" = Ok ("out.pdf", w1) /\
    generate_split_receipt_pdf sample_later w1 sample_original sample_new
      [sample_item] [] "out.pdf" = Ok ("out.pdf", w2) /\
    files w1 !! "out.pdf" = Some (template "out.pdf", story1) /\
    files w2 !! "out.pdf" = Some (template "out.pdf", story2) /\
    story1 !! 1%nat = Some (Paragraph "Generated: November 03, 2026 at 02:05 PM" body_style) /\
    story2 !! 1%nat = Some (Paragraph "Generated: November 03, 2026 at 02:06 PM" body_style) /\
    forall i, i <> 1%nat -> story1 !! i = story2 !! i.
Proof.
  pose proof (C9_same_content_except_timestamp sample_now sample_later sample_world
                sample_original sample_new [sample_item] [] "out.pdf") as H.
  destruct (generate_split_receipt_pdf sample_now sample_world sample_original sample_new
              [sample_item] [] "out.pdf") as [[ret1 w1]|e] eqn:G;
    [|vm_compute in G; discriminate G].
  apply generate_echo in G as ->.
  destruct H as (w2 & story1 & story2 & G2 & F1 & F2 & _ & Same & S1 & S2).
  exists w1, w2, story1, story2. repeat split; assumption.
Defined.

(** ** Item rows *)

Lemma py_str_Ok_iff v : (exists s, py_str v = Ok s) <-> printable v = true.
Proof.
  destruct v as [|t|n]; simpl; [split; eauto | split; eauto |].
  rewrite Nat.leb_le.
  destruct (Nat.ltb_spec max_str_digits (String.length (str_of_Z (Z.abs n)))) as [L|L].
  - split; [intros [s [=]] | lia].
  - split; [intros _; exact L | eauto].
Qed.


(** A raise of [item_row] comes from the value of a key that is present. *)
Lemma item_row_raise item e :
  item_row item = Raise e ->
  exists k v,
    item !! k = Some v /\
    (k = "quantity" /\ py_str v = Raise e \/
     (k = "unit_price_cents" \/ k = "total_cents") /\ fmt_dollars v = Raise e).
Proof.
  unfold item_row. cbv zeta. unfold get.
  destruct (item !! "quantity") as [q|] eqn:Eq.
  2: change (py_str (VInt 1)) with (@Ok string "1").
  1: destruct (py_str q) as [sq|eq] eqn:Q;
       [|cbn [bind]; intros [= <-]; exists "quantity", q; auto].
  all: cbn [bind].
  all: destruct (item !! "unit_price_cents") as [up|] eqn:Eup.
  all: try change (fmt_dollars (VInt 0)) with (@Ok string "$0.00").
  all: try (destruct (fmt_dollars up) as [s|e'] eqn:F;
            [|cbn [bind]; intros [= <-]; exists "unit_price_cents", up; auto]).
  all: cbn [bind].
  all: destruct (item !! "total_cents") as [tot|] eqn:Etot.
  all: try change (fmt_dollars (VInt 0)) with (@Ok string "$0.00").
  all: try (destruct (fmt_dollars tot) as [s'|e''] eqn:F';
            [|cbn [bind]; intros [= <-]; exists "total_cents", tot; auto]).
  all: cbn [bind]; discriminate.
Qed.

Lemma item_row_defaults item row : item_row item = Ok row -> row_with_defaults item row.
Proof.
  intros R. split; [exact R|].
  unfold item_row in R. cbv zeta in R.
  apply bind_Ok in R as (q & Hq & R).
  apply bind_Ok in R as (up & Hup & R).
  apply bind_Ok in R as (tot & Htot & [= <-]).
  exists q, up, tot. repeat (split; [assumption || reflexivity|]).
  split; [|split; [|split]]; intros E; rewrite (get_absent _ _ _ E) in *.
  - reflexivity.
  - change (py_str (VInt 1)) with (@Ok string "1") in Hq. injection Hq as <-. reflexivity.
  - change (fmt_dollars (VInt 0)) with (@Ok string "$0.00") in Hup. injection Hup as <-.
    reflexivity.
  - change (fmt_dollars (VInt 0)) with (@Ok string "$0.00") in Htot. injection Htot as <-.
    reflexivity.
Qed.

Lemma items_block_defaults items style b :
  items_block items style = Ok b ->
  items <> [] ->
  exists rows,
    b = [Table (items_header :: rows) items_colWidths style] /\
    Forall2 row_with_defaults items rows.
Proof.
  intros Hb Hne. apply items_block_shape in Hb.
  destruct items as [|item items]; [contradiction|].
  destruct Hb as (rows & -> & F). exists rows. split; [reflexivity|].
  eapply Forall2_impl; [exact F|]. exact item_row_defaults.
Qed.

Lemma with_default_lookup_eq k default d : is_Some (with_default k default d !! k).
Proof.
  unfold with_default. destruct (d !! k) as [v|] eqn:E.
  - rewrite E. eauto.
  - rewrite lookup_insert_eq. eauto.
Qed.

Lemma with_default_lookup_ne k k' default d :
  k <> k' -> with_default k default d !! k' = d !! k'.
Proof.
  intros Hne. unfold with_default. destruct (d !! k); [reflexivity|].
  apply lookup_insert_ne. exact Hne.
Qed.

Lemma get_with_default_eq k default d : get (with_default k default d) k default = get d k default.
Proof.
  unfold with_default. destruct (d !! k) as [v|] eqn:E; [reflexivity|].
  rewrite get_insert_eq, (get_absent _ _ _ E). reflexivity.
Qed.

Lemma get_with_default_ne k k' default default' d :
  k <> k' -> get (with_default k default d) k' default' = get d k' default'.
Proof.
  intros Hne. unfold get. rewrite with_default_lookup_ne by exact Hne. reflexivity.
Qed.

Lemma fill_defaults_keys item : Forall (fun k => is_Some (fill_defaults item !! k)) item_keys.
Proof.
  unfold fill_defaults, item_keys.
  repeat constructor;
    rewrite ?with_default_lookup_ne by discriminate; apply with_default_lookup_eq.
Qed.

Lemma item_row_fill_defaults item : item_row (fill_defaults item) = item_row item.
Proof.
  unfold item_row, fill_defaults. cbv zeta.
  repeat (rewrite get_with_default_eq || rewrite get_with_default_ne by discriminate).
  reflexivity.
Qed.

Lemma items_loop_fill_defaults acc items :
  items_loop acc (map fill_defaults items) = items_loop acc items.
Proof.
  revert acc. induction items as [|item items IH]; intros acc; cbn [map items_loop].
  - reflexivity.
  - rewrite item_row_fill_defaults. destruct (item_row item); cbn [bind]; [apply IH | reflexivity].
Qed.

Lemma items_block_fill_defaults items style :
  items_block (map fill_defaults items) style = items_block items style.
Proof.
  unfold items_block. rewrite items_loop_fill_defaults. destruct items; reflexivity.
Qed.

Lemma build_story_fill_defaults now o n oi ni :
  build_story now o n (map fill_defaults oi) (map fill_defaults ni) = build_story now o n oi ni.
Proof.
  rewrite !build_story_flat_eq. unfold build_story_flat.
  rewrite !items_block_fill_defaults. reflexivity.
Qed.

(** C10.  An absent key of an item never raises.  In the row of an item, an
    absent [description] is the empty string, an absent [quantity] converts
    to [1], an absent [unit_price_cents] and an absent [total_cents] format
    as [$0.00]; when the row raises, the exception comes from the value of
    a key that is present ([quantity], [unit_price_cents] or [total_cents]);
    the row is the row of the item with the four defaults filled in.  At the
    public interface, the call has the outcome of the call on the items with
    the defaults filled in, and when it returns, each non-empty item list
    has its table in the story: the header row and one row per item, with
    the defaults at the absent keys. *)
Theorem C10_item_rows_with_defaults now w o n oi ni path :
  (forall item,
     (item !! "description" = None -> get item "description" (VStr "") = VStr "") /\
     (item !! "quantity" = None -> py_str (get item "quantity" (VInt 1)) = Ok "1") /\
     (item !! "unit_price_cents" = None ->
      fmt_dollars (get item "unit_price_cents" (VInt 0)) = Ok "$0.00") /\
     (item !! "total_cents" = None ->
      fmt_dollars (get item "total_cents" (VInt 0)) = Ok "$0.00") /\
     (forall e,
        item_row item = Raise e ->
        exists k v,
          item !! k = Some v /\
          (k = "quantity" /\ py_str v = Raise e \/
           (k = "unit_price_cents" \/ k = "total_cents") /\ fmt_dollars v = Raise e)) /\
     (forall row, item_row item = Ok row -> row_with_defaults item row) /\
     Forall (fun k => is_Some (fill_defaults item !! k)) item_keys /\
     item_row (fill_defaults item) = item_row item) /\
  generate_split_receipt_pdf now w o n (map fill_defaults oi) (map fill_defaults ni) path =
    generate_split_receipt_pdf now w o n oi ni path /\
  (forall ret w',
     generate_split_receipt_pdf now w o n oi ni path = Ok (ret, w') ->
     exists story,
       story_at w' path = Some story /\
       (oi <> [] ->
        exists rows,
          In (Table (items_header :: rows) items_colWidths original_items_style) story /\
          Forall2 row_with_defaults oi rows) /\
       (ni <> [] ->
        exists rows,
          In (Table (items_header :: rows) items_colWidths new_items_style) story /\
          Forall2 row_with_defaults ni rows)).
Proof.
  split; [|split].
  - intros item.
    split; [intros E; rewrite (get_absent _ _ _ E); reflexivity|].
    split; [intros E; rewrite (get_absent _ _ _ E); reflexivity|].
    split; [intros E; rewrite (get_absent _ _ _ E); reflexivity|].
    split; [intros E; rewrite (get_absent _ _ _ E); reflexivity|].
    split; [intros e; apply item_row_raise|].
    split; [intros row; apply item_row_defaults|].
    split; [apply fill_defaults_keys | apply item_row_fill_defaults].
  - unfold generate_split_receipt_pdf. rewrite build_story_fill_defaults. reflexivity.
  - intros ret w' H. apply generate_story in H as (story & Hat & P).
    destruct P as (a_total & b_total & sum_total & oid & nid & cat & a_block & b_block & grand &
                   _ & _ & _ & _ & _ & _ & _ & Hab & Hbb & ->).
    eexists. split; [exact Hat|]. split.
    + intros Hne. destruct (items_block_defaults _ _ _ Hab Hne) as (rows & -> & F).
      exists rows. split; [|exact F]. apply assemble_In_a_block. left. reflexivity.
    + intros Hne. destruct (items_block_defaults _ _ _ Hbb Hne) as (rows & -> & F).
      exists rows. split; [|exact F]. apply assemble_In_b_block. left. reflexivity.
Qed.

Lemma C10_witness :
  exists w' story,
    generate_split_receipt_pdf sample_now sample_world sample_original sample_new
      [∅; sample_item] [<["description" := VStr "Lunch"]> ∅] "out.pdf" = Ok ("out.pdf", w') /\
    story_at w' "out.pdf" = Some story /\
    In (Table [ items_header;
                [VStr ""; VStr "1"; VStr "$0.00"; VStr "$0.00"];
                [VStr "Pens"; VStr "3"; VStr "$3.50"; VStr "$10.50"] ]
          items_colWidths original_items_style) story /\
    In (Table [ items_header;
                [VStr "Lunch"; VStr "1"; VStr "$0.00"; VStr "$0.00"] ]
          items_colWidths new_items_style) story /\
    generate_split_receipt_pdf sample_now sample_world sample_original sample_new
      [fill_defaults ∅; fill_defaults sample_item]
      [fill_defaults (<["description" := VStr "Lunch"]> ∅)] "out.pdf" = Ok ("out.pdf", w').
Proof.
  destruct (C10_item_rows_with_defaults sample_now sample_world sample_original sample_new
              [∅; sample_item] [<["description" := VStr "Lunch"]> ∅] "out.pdf")
    as (_ & Hfill & Hret).
  eexists.
  edestruct (Hret "out.pdf") as (story & Hat & A & B); [vm_compute; reflexivity|].
  exists story. split; [reflexivity|]. split; [exact Hat|].
  destruct (A ltac:(discriminate)) as (rows_a & Ia & Fa).
  destruct (B ltac:(discriminate)) as (rows_b & Ib & Fb).
  assert (rows_a = [ [VStr ""; VStr "1"; VStr "$0.00"; VStr "$0.00"];
                     [VStr "Pens"; VStr "3"; VStr "$3.50"; VStr "$10.50"] ]) as <-.
  { inversion Fa as [|i1 r1 is1 rs1 [R1 _] Fa1]; subst.
    inversion Fa1 as [|i2 r2 is2 rs2 [R2 _] Fa2]; subst.
    inversion Fa2; subst.
    vm_compute in R1. vm_compute in R2. congruence. }
  assert (rows_b = [ [VStr "Lunch"; VStr "1"; VStr "$0.00"; VStr "$0.00"] ]) as <-.
  { inversion Fb as [|i1 r1 is1 rs1 [R1 _] Fb1]; subst.
    inversion Fb1; subst.
    vm_compute in R1. congruence. }
  split; [assumption|]. split; [assumption|].
  etransitivity; [exact Hfill|]. vm_compute. reflexivity.
Defined.

(** ** More on the formatting of amounts *)

Lemma rne_div_tie x d :
  0 < d ->
  exists q r, x = d * q + r /\ 0 <= r < d /\
    (2 * r < d -> rne_div x d = q) /\
    (d < 2 * r -> rne_div x d = q + 1) /\
    (2 * r = d -> rne_div x d = if Z.even q then q else q + 1).
Proof.
  intros Hd. exists (x / d), (x mod d).
  pose proof (Z.div_mod x d ltac:(lia)) as E.
  pose proof (Z.mod_pos_bound x d Hd) as B.
  split; [exact E|]. split; [exact B|].
  unfold rne_div.
  destruct (Z.ltb_spec (2 * (x mod d)) d); destruct (Z.ltb_spec d (2 * (x mod d)));
    repeat split; intros; try lia; reflexivity.
Qed.

Lemma rne_div_1 x : rne_div x 1 = x.
Proof. apply rne_div_near; lia. Qed.

Lemma two_digits_chars r :
  0 <= r < 100 ->
  two_digits r = String (digit_char (r / 10)) (String (digit_char (r mod 10)) EmptyString).
Proof.
  intros Hr.
  assert (A : forallb (fun k => if string_dec (two_digits (Z.of_nat k))
                                     (String (digit_char (Z.of_nat k / 10))
                                        (String (digit_char (Z.of_nat k mod 10)) EmptyString))
                                then true else false) (seq 0 100) = true)
    by (vm_compute; reflexivity).
  rewrite forallb_forall in A. specialize (A (Z.to_nat r)).
  rewrite Z2Nat.id in A by lia.
  destruct (string_dec _ _) as [E|_]; [exact E|].
  assert (false = true) by (apply A, in_seq; lia). discriminate.
Qed.

(** X1.  An amount that formats reads [$], a minus sign when it is negative,
    the dollars, a point and exactly two digits; the cents [c] that it shows
    are off the true amount by at most half a cent more than the amount
    times [2^-53]: [2^52 * (2 * |c - |n|| - 1) <= |n|]. *)
Theorem X1_rendered_amount_shape_and_accuracy n s :
  fmt_dollars (VInt n) = Ok s ->
  exists c,
    0 <= c /\ s = dollars_text (n <? 0) c /\
    2 ^ 52 * (2 * Z.abs (c - Z.abs n) - 1) <= Z.abs n.
Proof.
  unfold fmt_dollars, py_truediv_100, int_truediv_100.
  destruct (Z.eqb_spec n 0) as [->|Hz].
  { intros [= <-]. exists 0. split; [lia|]. split; reflexivity || (vm_compute; discriminate). }
  set (a := Z.abs n). assert (Ha : 0 < a) by (subst a; lia).
  set (e := log2_div100 a - 52).
  pose proof (mant_bound a Ha) as B. fold e in B.
  pose proof (log2_div100_lower a Ha) as L.
  pose proof (pow2_pos e) as Pe. pose proof (pow2_pos (- e)) as Pe'.
  pose proof (rne_div_upper _ (100 * pow2 e) (2 ^ 53) ltac:(lia) B) as M.
  pose proof (rne_div_error (a * pow2 (- e)) (100 * pow2 e) ltac:(lia)) as E1.
  set (m := rne_div (a * pow2 (- e)) (100 * pow2 e)) in *.
  destruct (_ <=? _); [discriminate|]. cbn [bind]. intros [= <-].
  unfold format_2f. cbn [fsign fmant fexp].
  pose proof (rne_div_error (100 * m * pow2 e) (pow2 (- e)) Pe') as E2.
  assert (C0 : 0 <= rne_div (100 * m * pow2 e) (pow2 (- e))).
  { apply (rne_div_upper _ _ (100 * m * pow2 e + 1)); nia. }
  set (c := rne_div (100 * m * pow2 e) (pow2 (- e))) in *.
  exists c. split; [exact C0|]. split.
  { unfold dollars_text. rewrite two_digits_chars by (apply Z.mod_pos_bound; lia).
    replace ((c mod 100) mod 10) with (c mod 10) by (Z.div_mod_to_equations; lia).
    reflexivity. }
  pose proof (pow2_shift e 52 ltac:(lia)) as S.
  replace (e + 52) with (log2_div100 a) in S by (subst e; lia).
  rewrite (pow2_nonneg 52) in S by lia.
  pose proof (pow2_pos (log2_div100 a)) as PK. pose proof (pow2_pos (- log2_div100 a)) as PK'.
  clearbody m c e. clear B M Hz.
  set (p := pow2 e) in *. set (p' := pow2 (- e)) in *.
  set (k := pow2 (log2_div100 a)) in *. set (k' := pow2 (- log2_div100 a)) in *.
  clearbody p p' k k' a.
  set (X := 2 * Z.abs (c - a) - 1).
  assert (PX : p' * X <= 100 * p).
  { destruct (Z.le_gt_cases a c) as [G|G].
    - assert (p' * X = 2 * (p' * c) - 2 * (a * p') - p')
        by (subst X; rewrite Z.abs_eq by lia; ring).
      lia.
    - assert (p' * X = 2 * (a * p') - 2 * (p' * c) - p')
        by (subst X; rewrite Z.abs_neq by lia; ring).
      lia. }
  clearbody X.
  assert (H1 : k * (p' * X) <= k * (100 * p)) by (apply Z.mul_le_mono_nonneg_l; lia).
  assert (H2 : p * (100 * k) <= p * (a * k')) by (apply Z.mul_le_mono_nonneg_l; lia).
  assert (Eq : (p * k') * (2 ^ 52 * X) = k * (p' * X)).
  { transitivity ((p * k' * 2 ^ 52) * X); [ring|]. rewrite <- S. ring. }
  apply Z.mul_le_mono_pos_l with (p := p * k'); [apply Z.mul_pos_pos; lia|].
  rewrite Eq. apply Z.le_trans with (m := k * (100 * p)); [exact H1|].
  replace (k * (100 * p)) with (p * (100 * k)) by ring.
  replace (p * k' * a) with (p * (a * k')) by ring. exact H2.
Qed.

Lemma log2_div100_at_most a k :
  0 < a -> 0 <= k -> a < 100 * 2 ^ k -> log2_div100 a < k.
Proof.
  intros Ha Hk Hlt. pose proof (log2_div100_lower a Ha) as L.
  destruct (Z.lt_ge_cases (log2_div100 a) k) as [G|G]; [exact G|exfalso].
  rewrite (pow2_nonpos (- log2_div100 a)), pow2_nonneg in L by lia.
  assert (2 ^ k <= 2 ^ log2_div100 a) by (apply Z.pow_le_mono_r; lia). lia.
Qed.

Lemma log2_div100_at_least a k :
  0 < a -> 0 <= k -> 100 * 2 ^ k <= a -> k <= log2_div100 a.
Proof.
  intros Ha Hk Hle. pose proof (log2_div100_upper a Ha) as U.
  destruct (Z.le_gt_cases k (log2_div100 a)) as [G|G]; [exact G|exfalso].
  assert (0 < 2 ^ k) by (apply Z.pow_pos_nonneg; lia).
  destruct (Z.le_gt_cases (log2_div100 a + 1) 0) as [N|N].
  - rewrite (pow2_nonpos (log2_div100 a + 1)) in U by lia.
    pose proof (pow2_pos (- (log2_div100 a + 1))). nia.
  - rewrite (pow2_nonpos (- (log2_div100 a + 1))), pow2_nonneg in U by lia.
    assert (2 ^ (log2_div100 a + 1) <= 2 ^ k) by (apply Z.pow_le_mono_r; lia). lia.
Qed.

(** [int / 100] overflows exactly from the threshold on. *)
Lemma int_truediv_100_overflow n :
  int_truediv_100 n = Raise OverflowError <-> overflow_threshold <= Z.abs n.
Proof.
  unfold int_truediv_100, overflow_threshold.
  destruct (Z.eqb_spec n 0) as [->|Hz].
  { split; [discriminate|]. simpl Z.abs. intros H. exfalso.
    assert (2 ^ 970 < 2 ^ 1024) by (apply Z.pow_lt_mono_r; lia). lia. }
  set (a := Z.abs n). assert (Ha : 0 < a) by (subst a; lia). clearbody a.
  set (e := log2_div100 a - 52).
  pose proof (mant_bound a Ha) as B. fold e in B.
  pose proof (pow2_pos e) as Pe. pose proof (pow2_pos (- e)) as Pe'.
  pose proof (rne_div_upper _ (100 * pow2 e) (2 ^ 53) ltac:(lia) B) as M.
  pose proof (log2_div100_lower a Ha) as L.
  assert (Iff : 2 ^ 1024 * pow2 (- e) <= rne_div (a * pow2 (- e)) (100 * pow2 e) * pow2 e <->
                100 * (2 ^ 1024 - 2 ^ 970) <= a).
  { assert (K1 : a < 100 * 2 ^ 1023 -> e <= 970).
    { intros S. pose proof (log2_div100_at_most a 1023 Ha ltac:(lia) S). subst e. lia. }
    assert (K2 : 100 * 2 ^ 1023 <= a -> a < 100 * 2 ^ 1024 -> e = 971).
    { intros S1 S2. pose proof (log2_div100_at_most a 1024 Ha ltac:(lia) S2).
      pose proof (log2_div100_at_least a 1023 Ha ltac:(lia) S1). subst e. lia. }
    assert (K3 : 100 * 2 ^ 1024 <= a -> 972 <= e).
    { intros S. pose proof (log2_div100_at_least a 1024 Ha ltac:(lia) S). subst e. lia. }
    replace (log2_div100 a) with (e + 52) in L by (subst e; lia).
    clearbody e.
    assert (E1023 : 2 ^ 1023 = 2 ^ 53 * 2 ^ 970)
      by (rewrite <- Z.pow_add_r by lia; reflexivity).
    assert (E1024 : 2 ^ 1024 = 2 ^ 54 * 2 ^ 970)
      by (rewrite <- Z.pow_add_r by lia; reflexivity).
    rewrite E1023 in K1, K2. rewrite E1024 in K2, K3 |- *. clear E1023 E1024.
    assert (Hh : 0 < 2 ^ 970) by (apply Z.pow_pos_nonneg; lia).
    assert (Pb : e <= 970 -> pow2 e <= 2 ^ 970)
      by (intros; unfold pow2; apply Z.pow_le_mono_r; lia).
    assert (P971 : pow2 971 = 2 * 2 ^ 970)
      by (rewrite pow2_nonneg by lia; rewrite <- Z.pow_succ_r by lia; reflexivity).
    assert (P972 : 972 <= e -> 4 * 2 ^ 970 <= pow2 e).
    { intros G. rewrite pow2_nonneg by lia.
      replace (4 * 2 ^ 970) with (2 ^ 972) by (change 4 with (2 ^ 2); rewrite <- Z.pow_add_r by lia; reflexivity).
      apply Z.pow_le_mono_r; lia. }
    assert (P52 : 972 <= e -> pow2 (e + 52) = 2 ^ 52 * pow2 e).
    { intros G. rewrite !pow2_nonneg by lia. rewrite Z.pow_add_r by lia. ring. }
    assert (N1 : 0 <= e -> pow2 (- e) = 1) by (intros; apply pow2_nonpos; lia).
    assert (N2 : 0 <= e -> pow2 (- (e + 52)) = 1) by (intros; apply pow2_nonpos; lia).
    set (h := 2 ^ 970) in *. clearbody h.
    change (2 ^ 53) with 9007199254740992 in *.
    change (2 ^ 54) with 18014398509481984 in *.
    change (2 ^ 52) with 4503599627370496 in *.
    destruct (Z.lt_ge_cases a (100 * (9007199254740992 * h))) as [Small|Big].
    - (* below the last binade: the significand has room *)
      specialize (Pb (K1 Small)). clear K1 K2 K3 P971 P972 P52 N1 N2 L.
      set (m := rne_div _ _) in *. clearbody m.
      set (p := pow2 e) in *. set (p' := pow2 (- e)) in *. clearbody p p'.
      assert (m * p <= 9007199254740992 * h) by (apply Z.mul_le_mono_nonneg; lia).
      assert (18014398509481984 * h * 1 <= 18014398509481984 * h * p')
        by (apply Z.mul_le_mono_nonneg_l; lia).
      split; intros H'; exfalso; lia.
    - destruct (Z.lt_ge_cases a (100 * (18014398509481984 * h))) as [Mid|Huge].
      + (* the last binade: e = 971 *)
        rewrite (K2 Big Mid) in *. rewrite (N1 ltac:(lia)), P971.
        clear K1 K2 K3 Pb P971 P972 P52 N1 N2 L B M Pe Pe'.
        rewrite !Z.mul_1_r.
        assert (Hd : 0 < 100 * (2 * h)) by lia.
        destruct (rne_div_tie a (100 * (2 * h)) Hd) as (q & r & Eq & Br & Lo & Hi & Tie).
        set (m := rne_div a (100 * (2 * h))) in *. clearbody m.
        assert (Q : q <= 9007199254740990 \/ q = 9007199254740991 \/ 9007199254740992 <= q)
          by lia.
        assert (Bm : q <= m <= q + 1).
        { destruct (Z.lt_trichotomy (2 * r) (100 * (2 * h))) as [T|[T|T]].
          - rewrite (Lo T). lia.
          - rewrite (Tie T). destruct (Z.even q); lia.
          - rewrite (Hi T). lia. }
        destruct Q as [Q|[Q|Q]].
        * assert (m <= 9007199254740991) by lia.
          assert (q * h <= 9007199254740990 * h) by (apply Z.mul_le_mono_nonneg_r; lia).
          assert (m * h <= 9007199254740991 * h) by (apply Z.mul_le_mono_nonneg_r; lia).
          assert (r < 200 * h) by lia.
          split; intros H'; exfalso; lia.
        * subst q.
          destruct (Z.lt_trichotomy (2 * r) (100 * (2 * h))) as [T|[T|T]].
          -- rewrite (Lo T). split; intros H'; exfalso; lia.
          -- rewrite (Tie T). change (Z.even 9007199254740991) with false.
             split; intros _; lia.
          -- rewrite (Hi T). split; intros _; lia.
        * assert (9007199254740992 * h <= q * h) by (apply Z.mul_le_mono_nonneg_r; lia).
          assert (q * h <= m * h) by (apply Z.mul_le_mono_nonneg_r; lia).
          split; intros _; lia.
      + (* beyond: the quotient itself is at least 2^1024 *)
        assert (G : 972 <= e) by (apply K3; lia).
        rewrite (N1 ltac:(lia)) in *. rewrite (N2 ltac:(lia)), (P52 G) in L.
        specialize (P972 G).
        clear K1 K2 K3 Pb P971 P52 N1 N2 B M Pe'.
        set (p := pow2 e) in *. clearbody p.
        destruct (rne_div_cases (a * 1) (100 * p) ltac:(lia))
          as (q & r & Eq & Br & Hm).
        set (m := rne_div (a * 1) (100 * p)) in *. clearbody m.
        assert (Qm : q <= m) by (destruct Hm as [[-> _]|[-> _]]; lia).
        assert (Q52 : 4503599627370496 <= q).
        { destruct (Z.lt_ge_cases q 4503599627370496) as [C|C]; [exfalso|exact C].
          assert (100 * p * (q + 1) <= 100 * p * 4503599627370496)
            by (apply Z.mul_le_mono_nonneg_l; lia).
          lia. }
        assert (4503599627370496 * p <= m * p) by (apply Z.mul_le_mono_nonneg_r; lia).
        split; intros _; lia. }
  destruct (Z.leb_spec (2 ^ 1024 * pow2 (- e))
              (rne_div (a * pow2 (- e)) (100 * pow2 e) * pow2 e)) as [H|H].
  - split; [intros _; apply Iff; exact H | reflexivity].
  - split; [discriminate |]. intros H'. apply Iff in H'. exfalso.
    apply (Z.lt_irrefl _ (Z.le_lt_trans _ _ _ H' H)).
Qed.

Lemma fmt_dollars_Ok_iff v : (exists s, fmt_dollars v = Ok s) <-> formattable v = true.
Proof.
  destruct v as [|t|n]; simpl.
  - split; [intros [s [=]] | discriminate].
  - split; [intros [s [=]] | discriminate].
  - rewrite Z.ltb_lt. unfold fmt_dollars, py_truediv_100.
    destruct (int_truediv_100 n) as [x|e] eqn:E; cbn [bind].
    + split; [intros _ | eauto].
      destruct (Z.lt_ge_cases (Z.abs n) overflow_threshold) as [G|G]; [exact G|].
      apply (int_truediv_100_overflow n) in G. congruence.
    + assert (e = OverflowError) as ->.
      { unfold int_truediv_100 in E. destruct (n =? 0); [discriminate|].
        destruct (_ <=? _); congruence. }
      apply (int_truediv_100_overflow n) in E.
      split; [intros [s [=]] | intros G; lia].
Qed.

(** X2.  The outcomes of formatting a value as dollars.  An [int] gives a
    text exactly when it is below [100 * (2^1024 - 2^970)] in magnitude and
    [OverflowError] exactly from that magnitude on, and no other exception;
    [None] and a [str] give [TypeError]. *)
Theorem X2_fmt_dollars_outcomes n :
  ((exists s, fmt_dollars (VInt n) = Ok s) <-> Z.abs n < overflow_threshold) /\
  (fmt_dollars (VInt n) = Raise OverflowError <-> overflow_threshold <= Z.abs n) /\
  (forall e, fmt_dollars (VInt n) = Raise e -> e = OverflowError) /\
  fmt_dollars VNone = Raise TypeError /\
  (forall s, fmt_dollars (VStr s) = Raise TypeError).
Proof.
  split; [|split; [|split; [|split]]].
  - rewrite fmt_dollars_Ok_iff. simpl. apply Z.ltb_lt.
  - pose proof (int_truediv_100_overflow n) as O.
    unfold fmt_dollars, py_truediv_100.
    destruct (int_truediv_100 n) as [x|e]; cbn [bind].
    + split; [discriminate | intros H; apply O in H; discriminate].
    + split; [intros [= ->]; apply O; reflexivity | intros H; apply O in H; congruence].
  - intros e. unfold fmt_dollars, py_truediv_100, int_truediv_100.
    destruct (n =? 0); [discriminate|]. destruct (_ <=? _); [|discriminate].
    cbn [bind]. congruence.
  - reflexivity.
  - reflexivity.
Qed.

(** X3.  A negative amount reads as the positive one with a minus sign
    after the [$]. *)
Theorem X3_negative_amount_mirrors_positive n s :
  0 < n ->
  fmt_dollars (VInt n) = Ok s ->
  exists t, s = "$" +:+ t /\ fmt_dollars (VInt (- n)) = Ok ("$-" +:+ t).
Proof.
  intros Hn. unfold fmt_dollars, py_truediv_100, int_truediv_100.
  destruct (Z.eqb_spec n 0) as [->|_]; [lia|].
  destruct (Z.eqb_spec (- n) 0) as [E|_]; [lia|].
  rewrite Z.abs_opp.
  destruct (_ <=? _); [discriminate|]. cbn [bind].
  replace (n <? 0) with false by (symmetry; apply Z.ltb_ge; lia).
  replace (- n <? 0) with true by (symmetry; apply Z.ltb_lt; lia).
  unfold format_2f. cbn [fsign fmant fexp]. intros [= <-].
  eexists. split; reflexivity.
Qed.

(** ** Which items give a row *)

Lemma item_row_Ok_iff item : (exists row, item_row item = Ok row) <-> item_formattable item = true.
Proof.
  unfold item_formattable, item_row. cbv zeta.
  rewrite !andb_true_iff, <- !fmt_dollars_Ok_iff, <- py_str_Ok_iff. split.
  - intros (row & H). apply bind_Ok in H as (q & Hq & H).
    apply bind_Ok in H as (up & Hup & H).
    apply bind_Ok in H as (tot & Htot & _). repeat split; eauto.
  - intros [[[q ->] [up ->]] [tot ->]]. cbn [bind]. eauto.
Qed.

Lemma is_str_true v : is_str v = true <-> exists s, v = VStr s.
Proof.
  destruct v; simpl; split; try discriminate; eauto; intros [s' [=]].
Qed.

(** ** Which exception a call raises *)








Lemma generate_Raise now w o n oi ni path e :
  generate_split_receipt_pdf now w o n oi ni path = Raise e <->
  build_story now o n oi ni = Raise e \/
  e = OSError /\ (exists story, build_story now o n oi ni = Ok story) /\ writable w path = false.
Proof.
  unfold generate_split_receipt_pdf, doc_build. cbv zeta. simpl filename.
  destruct (build_story now o n oi ni) as [story|e']; cbn [bind].
  - destruct (writable w path); cbn [bind].
    + split; [discriminate | intros [[=]|(_ & _ & [=])]].
    + split; [intros [= <-]; right; eauto | intros [[=]|(-> & _ & _)]; reflexivity].
  - split; [intros [= ->]; auto | intros [[= ->]|(_ & (story & [=]) & _)]; reflexivity].
Qed.

Lemma items_loop_first_bad acc good bad rest e :
  forallb item_formattable good = true ->
  item_row bad = Raise e ->
  items_loop acc (good ++ bad :: rest) = Raise e.
Proof.
  revert acc. induction good as [|item good IH]; intros acc Hg Hb; cbn [app items_loop].
  - rewrite Hb. reflexivity.
  - cbn [forallb] in Hg. apply andb_true_iff in Hg as [Hi Hg].
    apply item_row_Ok_iff in Hi as [row ->]. cbn [bind]. apply IH; assumption.
Qed.


(** X6.  The total of the original receipt is formatted first: when that
    raises, the call raises the same exception, whatever the other
    arguments and the path are. *)
Theorem X6_original_total_is_checked_first now w o n oi ni path e :
  fmt_dollars (get o "total_cents" (VInt 0)) = Raise e ->
  generate_split_receipt_pdf now w o n oi ni path = Raise e.
Proof.
  intros H. apply generate_Raise. left.
  rewrite build_story_flat_eq. unfold build_story_flat. cbv zeta. rewrite H. reflexivity.
Qed.

(** X7.  With an original receipt in order, the first original item whose
    row raises decides the exception of the call: the items before it are
    in order (the quantity converts to a text of at most 4300 digits, the
    two amounts format), and nothing of the later items, of the new receipt,
    of its items or of the path is looked at. *)
Theorem X7_first_bad_original_item_decides now w o n good bad rest ni path e :
  formattable (get o "total_cents" (VInt 0)) = true ->
  is_str (get o "id" (VStr "")) = true ->
  forallb item_formattable good = true ->
  item_row bad = Raise e ->
  generate_split_receipt_pdf now w o n (good ++ bad :: rest) ni path = Raise e.
Proof.
  intros [a_total Ha]%fmt_dollars_Ok_iff [oid Hoid]%is_str_true Hg Hb.
  apply generate_Raise. left.
  rewrite build_story_flat_eq. unfold build_story_flat. cbv zeta.
  rewrite Ha, Hoid. cbn [bind py_slice_to py_add].
  unfold items_block.
  replace (py_truthy (good ++ bad :: rest)) with true by (destruct good; reflexivity).
  rewrite (items_loop_first_bad _ _ _ _ _ Hg Hb). reflexivity.
Qed.

(** ** Keys that are not read *)

(** X8.  Of the original receipt only [vendor], [receipt_date],
    [total_cents] and [id] are read: setting any other key, [purpose_text]
    for one, changes nothing in the outcome of the call. *)
Theorem X8_original_receipt_other_keys_ignored now w o n oi ni path k v :
  k <> "vendor" -> k <> "receipt_date" -> k <> "total_cents" -> k <> "id" ->
  generate_split_receipt_pdf now w (<[k := v]> o) n oi ni path =
  generate_split_receipt_pdf now w o n oi ni path.
Proof.
  intros H1 H2 H3 H4. unfold generate_split_receipt_pdf, build_story. cbv zeta.
  rewrite !(get_insert_ne o k) by assumption. reflexivity.
Qed.

(** X9.  Of the new receipt only [suggested_category], [total_cents] and
    [id] are read: setting any other key, its [vendor], [receipt_date] or
    [purpose_text] for one, changes nothing in the outcome of the call. *)
Theorem X9_new_receipt_other_keys_ignored now w o n oi ni path k v :
  k <> "suggested_category" -> k <> "total_cents" -> k <> "id" ->
  generate_split_receipt_pdf now w o (<[k := v]> n) oi ni path =
  generate_split_receipt_pdf now w o n oi ni path.
Proof.
  intros H1 H2 H3. unfold generate_split_receipt_pdf, build_story. cbv zeta.
  rewrite !(get_insert_ne n k) by assumption. reflexivity.
Qed.

(** ** More on the story of a call that returns *)

Lemma items_block_length items style b :
  items_block items style = Ok b -> length b = (if py_truthy items then 1 else 0)%nat.
Proof.
  intros H. apply items_block_shape in H. destruct items as [|item items].
  - subst b. reflexivity.
  - destruct H as (rows & -> & _). reflexivity.
Qed.


(** X11.  When the call returns, each receipt total is formatted to one
    text: for the original receipt it is in the Original Total cell and in
    the Receipt A total line, both with [CAD] after it, and in the summary
    row without [CAD]; for the new receipt it is in the Receipt B total line
    and in the summary row. *)
Theorem X11_one_text_per_total now w o n oi ni path ret w' :
  generate_split_receipt_pdf now w o n oi ni path = Ok (ret, w') ->
  exists story info summary a_total b_total,
    story_at w' path = Some story /\
    head (tables story) = Some info /\
    last (tables story) = Some summary /\
    fmt_dollars (get o "total_cents" (VInt 0)) = Ok a_total /\
    fmt_dollars (get n "total_cents" (VInt 0)) = Ok b_total /\
    cell info 2 1 = Some (VStr (a_total +:+ " CAD")) /\
    In (Paragraph ("<b>Receipt A Total: " +:+ a_total +:+ " CAD</b>") body_style) story /\
    cell summary 1 1 = Some (VStr a_total) /\
    In (Paragraph ("<b>Receipt B Total: " +:+ b_total +:+ " CAD</b>") body_style) story /\
    cell summary 1 2 = Some (VStr b_total).
Proof.
  intros H. apply generate_story in H as (story & Hat & P).
  destruct P as (a_total & b_total & sum_total & oid & nid & cat & a_block & b_block & grand &
                 Ha & Hb & _ & _ & _ & _ & _ & _ & _ & ->).
  eexists _, _, _, a_total, b_total.
  split; [exact Hat|]. split; [apply assemble_first_table|]. split; [apply assemble_last_table|].
  split; [exact Ha|]. split; [exact Hb|]. split; [reflexivity|].
  split; [apply assemble_In_a_total|]. split; [reflexivity|].
  split; [apply assemble_In_b_total | reflexivity].
Qed.

(** X12.  Two calls that differ in the item lists only, both returning:
    the two stories have the same 12 blocks before the Receipt A item table,
    the same 6 blocks between the two item tables and the same 10 blocks
    after the Receipt B item table, so the totals and the summary do not
    depend on the items; each item table is one block, or none for an empty
    list. *)
Theorem X12_items_change_item_tables_only now w o n oi ni oi' ni' path ret w1 ret' w2 :
  generate_split_receipt_pdf now w o n oi ni path = Ok (ret, w1) ->
  generate_split_receipt_pdf now w o n oi' ni' path = Ok (ret', w2) ->
  exists pre mid post a b a' b',
    story_at w1 path = Some (pre ++ a ++ mid ++ b ++ post) /\
    story_at w2 path = Some (pre ++ a' ++ mid ++ b' ++ post) /\
    length pre = 12%nat /\ length mid = 6%nat /\ length post = 10%nat /\
    length a = (if py_truthy oi then 1 else 0)%nat /\
    length b = (if py_truthy ni then 1 else 0)%nat /\
    length a' = (if py_truthy oi' then 1 else 0)%nat /\
    length b' = (if py_truthy ni' then 1 else 0)%nat.
Proof.
  intros H1 H2.
  apply generate_story in H1 as (s1 & Hat1 & P1).
  apply generate_story in H2 as (s2 & Hat2 & P2).
  destruct P1 as (a_total & b_total & sum_total & oid & nid & cat & a & b & grand &
                  Ha & Hb & Hg & Hs & Hoid & Hnid & Hcat & Hab & Hbb & ->).
  destruct P2 as (a_total' & b_total' & sum_total' & oid' & nid' & cat' & a' & b' & grand' &
                  Ha' & Hb' & Hg' & Hs' & Hoid' & Hnid' & Hcat' & Hab' & Hbb' & ->).
  assert (a_total' = a_total) as -> by congruence.
  assert (b_total' = b_total) as -> by congruence.
  assert (grand' = grand) as -> by congruence.
  assert (sum_total' = sum_total) as -> by congruence.
  assert (oid' = oid) as -> by congruence.
  assert (nid' = nid) as -> by congruence.
  assert (cat' = cat) as -> by congruence.
  unfold assemble in Hat1, Hat2.
  eexists _, _, _, a, b, a', b'.
  split; [exact Hat1|]. split; [exact Hat2|].
  split; [reflexivity|]. split; [reflexivity|]. split; [reflexivity|].
  split; [exact (items_block_length _ _ _ Hab)|].
  split; [exact (items_block_length _ _ _ Hbb)|].
  split; [exact (items_block_length _ _ _ Hab') | exact (items_block_length _ _ _ Hbb')].
Qed.

(** X13.  When the call returns, the cut of the original id in the
    information table is the first 8 characters of its cut in the footer; an
    id of at most 8 characters is whole in the table, and an id of at most 16
    characters is whole in the footer.  Characters are code points. *)
Theorem X13_short_ids_shown_whole now w o n oi ni path ret w' :
  generate_split_receipt_pdf now w o n oi ni path = Ok (ret, w') ->
  exists story info oid nid t8 t16 u16,
    story_at w' path = Some story /\
    get o "id" (VStr "") = VStr oid /\
    get n "id" (VStr "") = VStr nid /\
    head (tables story) = Some info /\
    cell info 3 1 = Some (VStr (t8 +:+ "...")) /\
    last story = Some (Paragraph (footer_text (VStr t16) (VStr u16)) body_style) /\
    first_chars 8 t16 t8 /\
    ((code_points oid <= 8)%nat -> t8 = oid) /\
    ((code_points oid <= 16)%nat -> t16 = oid) /\
    ((code_points nid <= 16)%nat -> u16 = nid).
Proof.
  intros H. apply generate_story in H as (story & Hat & P).
  destruct P as (a_total & b_total & sum_total & oid & nid & cat & a_block & b_block & grand &
                 _ & _ & _ & _ & Hoid & Hnid & _ & _ & _ & ->).
  eexists _, _, oid, nid, (utf8_take 8 oid), (utf8_take 16 oid), (utf8_take 16 nid).
  split; [exact Hat|]. split; [exact Hoid|]. split; [exact Hnid|].
  split; [apply assemble_first_table|]. split; [reflexivity|]. split; [apply assemble_last|].
  split.
  { rewrite <- (utf8_take_again 8 16 oid) by lia. apply utf8_take_first_chars. }
  split; [|split]; intros L; apply utf8_take_all; exact L.
Qed.

(** X14.  An item whose quantity converts to a text and whose two amounts
    are integers of at most [100 * 2^46] cents in magnitude has them in its
    row exactly: the text of the quantity, and for each amount [$], the
    dollars, a point and the two digits of the cents. *)
Theorem X14_item_amounts_exact item q u t :
  py_str (get item "quantity" (VInt 1)) = Ok q ->
  item !! "unit_price_cents" = Some (VInt u) ->
  item !! "total_cents" = Some (VInt t) ->
  Z.abs u <= 100 * 2 ^ 46 ->
  Z.abs t <= 100 * 2 ^ 46 ->
  item_row item =
    Ok [ get item "description" (VStr ""); VStr q;
         VStr (exact_dollars u); VStr (exact_dollars t) ].
Proof.
  intros Eq Eu Et Bu Bt. unfold item_row. cbv zeta.
  rewrite Eq, (get_present _ _ _ _ Eu), (get_present _ _ _ _ Et).
  rewrite (fmt_dollars_exact u Bu), (fmt_dollars_exact t Bt). reflexivity.
Qed.

(** ** Amounts are told apart by their texts *)

Lemma string_of_uint_digits d : all_digits (NilEmpty.string_of_uint d) = true.
Proof. induction d; simpl; try rewrite IHd; reflexivity. Qed.

Lemma str_of_Z_digits q : 0 <= q -> all_digits (str_of_Z q) = true.
Proof.
  intros Hq. unfold str_of_Z. destruct q as [|p|p]; [reflexivity| |lia].
  simpl Z.to_int. cbn [NilZero.string_of_int].
  unfold NilZero.string_of_uint. destruct (Pos.to_uint p) eqn:E; [reflexivity|..];
    rewrite <- E; apply string_of_uint_digits.
Qed.

Lemma str_of_Z_inj a b : str_of_Z a = str_of_Z b -> a = b.
Proof.
  unfold str_of_Z. intros H.
  assert (N : forall z, Z.to_int z <> Decimal.Pos Decimal.Nil /\
                        Z.to_int z <> Decimal.Neg Decimal.Nil).
  { intros [|p|p]; simpl; split; try discriminate;
      intros [= E]; exact (DecimalPos.Unsigned.to_uint_nonnil p E). }
  apply (f_equal NilZero.int_of_string) in H.
  rewrite !NilZero.isi in H by apply N.
  injection H as H. apply (f_equal Z.of_int) in H. rewrite !DecimalZ.of_to in H. exact H.
Qed.

Lemma digits_then_point s1 s2 t1 t2 :
  all_digits s1 = true -> all_digits s2 = true ->
  s1 +:+ "." +:+ t1 = s2 +:+ "." +:+ t2 -> s1 = s2 /\ t1 = t2.
Proof.
  revert s2. induction s1 as [|c s1 IH]; intros [|c' s2] D1 D2 E.
  - injection E as E. auto.
  - rewrite append_cons in E. injection E as <- _. discriminate D2.
  - rewrite append_cons in E. injection E as -> _. discriminate D1.
  - rewrite !append_cons in E. injection E as <- E.
    cbn [all_digits] in D1, D2. apply andb_true_iff in D1 as [_ D1], D2 as [_ D2].
    destruct (IH s2 D1 D2 E) as [-> ->]. auto.
Qed.

Lemma digits_no_minus s t u : all_digits s = true -> s +:+ "." +:+ t <> "-" +:+ u.
Proof.
  destruct s as [|c s]; intros D E.
  - discriminate E.
  - rewrite !append_cons in E. injection E as -> _. discriminate D.
Qed.

Lemma digit_char_inj d d' : 0 <= d < 10 -> 0 <= d' < 10 -> digit_char d = digit_char d' -> d = d'.
Proof.
  unfold digit_char. intros H H' E. apply (f_equal nat_of_ascii) in E.
  rewrite !nat_ascii_embedding in E by lia. lia.
Qed.

Lemma exact_dollars_inj a b : exact_dollars a = exact_dollars b -> a = b.
Proof.
  unfold exact_dollars. intros E.
  assert (Qa : 0 <= Z.abs a / 100) by (apply Z.div_pos; lia).
  assert (Qb : 0 <= Z.abs b / 100) by (apply Z.div_pos; lia).
  pose proof (Z.mod_pos_bound (Z.abs a) 100 ltac:(lia)) as Ra.
  pose proof (Z.mod_pos_bound (Z.abs b) 100 ltac:(lia)) as Rb.
  pose proof (str_of_Z_digits _ Qa) as Da. pose proof (str_of_Z_digits _ Qb) as Db.
  rewrite !append_cons in E. injection E as E.
  assert (S : (a <? 0) = (b <? 0) /\
              str_of_Z (Z.abs a / 100) +:+ "." +:+ two_digits (Z.abs a mod 100) =
              str_of_Z (Z.abs b / 100) +:+ "." +:+ two_digits (Z.abs b mod 100)).
  { destruct (a <? 0), (b <? 0).
    - rewrite !append_cons in E. injection E as E. auto.
    - exfalso. symmetry in E. exact (digits_no_minus _ _ _ Db E).
    - exfalso. exact (digits_no_minus _ _ _ Da E).
    - auto. }
  destruct S as [Sg E'].
  apply digits_then_point in E' as [Eq Er]; [|assumption..].
  apply str_of_Z_inj in Eq.
  rewrite !two_digits_chars in Er by assumption.
  injection Er as E1 E2.
  apply digit_char_inj in E1; [|Z.div_mod_to_equations; lia..].
  apply digit_char_inj in E2; [|Z.div_mod_to_equations; lia..].
  assert (Z.abs a = Z.abs b) by (Z.div_mod_to_equations; lia).
  destruct (Z.ltb_spec a 0), (Z.ltb_spec b 0); try discriminate; lia.
Qed.

(** X15.  Within the exact range, two different amounts never read the
    same: the text of an amount of at most [100 * 2^46] cents in magnitude
    determines it. *)
Theorem X15_amounts_told_apart_by_their_texts a b :
  Z.abs a <= 100 * 2 ^ 46 ->
  Z.abs b <= 100 * 2 ^ 46 ->
  a <> b ->
  fmt_dollars (VInt a) <> fmt_dollars (VInt b).
Proof.
  intros Ba Bb Hne E. rewrite !fmt_dollars_exact in E by assumption.
  apply Hne, exact_dollars_inj. congruence.
Qed.

(** ** Ids beyond their cut *)

(** X16.  Of an id nothing beyond its first 16 characters (code points)
    enters the outcome of the call: two original ids with the same first 16
    characters, and two new ids with the same first 16 characters, give the
    same result. *)
Theorem X16_ids_matter_up_to_16_characters now w o n oi ni path s1 s2 t1 t2 :
  utf8_take 16 s1 = utf8_take 16 s2 ->
  utf8_take 16 t1 = utf8_take 16 t2 ->
  generate_split_receipt_pdf now w (<["id" := VStr s1]> o) (<["id" := VStr t1]> n) oi ni path =
  generate_split_receipt_pdf now w (<["id" := VStr s2]> o) (<["id" := VStr t2]> n) oi ni path.
Proof.
  intros Es Et. unfold generate_split_receipt_pdf. cbv zeta.
  rewrite !build_story_flat_eq. unfold build_story_flat. cbv zeta.
  rewrite !get_insert_eq, !(get_insert_ne _ "id") by discriminate.
  cbn [py_slice_to].
  rewrite <- (utf8_take_again 8 16 s1), <- (utf8_take_again 8 16 s2) by lia.
  rewrite Es, Et. reflexivity.
Qed.

Lemma X15_witness : fmt_dollars (VInt 1050) <> fmt_dollars (VInt (- 1050)).
Proof.
  apply X15_amounts_told_apart_by_their_texts; [vm_compute; discriminate..|lia].
Defined.

Lemma X16_witness :
  generate_split_receipt_pdf sample_now sample_world
    (<["id" := VStr "éééééééé01234567-one"]> sample_original)
    (<["id" := VStr "fedcba9876543210-x"]> sample_new) [sample_item] [] "out.pdf" =
  generate_split_receipt_pdf sample_now sample_world
    (<["id" := VStr "éééééééé01234567-two"]> sample_original)
    (<["id" := VStr "fedcba9876543210-y"]> sample_new) [sample_item] [] "out.pdf".
Proof.
  apply X16_ids_matter_up_to_16_characters; vm_compute; reflexivity.
Defined.

(** ** Instances *)

Lemma X1_witness :
  exists c,
    0 <= c /\ "$70368744177664.02" = dollars_text (7036874417766401 <? 0) c /\
    2 ^ 52 * (2 * Z.abs (c - Z.abs 7036874417766401) - 1) <= Z.abs 7036874417766401.
Proof.
  apply (X1_rendered_amount_shape_and_accuracy 7036874417766401 "$70368744177664.02").
  vm_compute. reflexivity.
Defined.

Lemma X2_witness :
  fmt_dollars (VInt (10 ^ 311)) = Raise OverflowError /\
  (exists s, fmt_dollars (VInt 1050) = Ok s) /\
  fmt_dollars (VStr "10.50") = Raise TypeError.
Proof.
  destruct (X2_fmt_dollars_outcomes (10 ^ 311)) as (_ & [_ Over] & _ & _ & Str).
  destruct (X2_fmt_dollars_outcomes 1050) as ([_ Text] & _).
  split; [|split].
  - apply Over. vm_compute. discriminate.
  - apply Text. vm_compute. reflexivity.
  - apply Str.
Defined.

Lemma X3_witness :
  exists t, "$0.05" = "$" +:+ t /\ fmt_dollars (VInt (- 5)) = Ok ("$-" +:+ t).
Proof.
  apply (X3_negative_amount_mirrors_positive 5 "$0.05"); [lia | vm_compute; reflexivity].
Defined.


Lemma X6_witness :
  generate_split_receipt_pdf sample_now sample_world (<["total_cents" := VStr "12.50"]> ∅)
    sample_new [sample_item] [] "out.pdf" = Raise TypeError.
Proof.
  apply X6_original_total_is_checked_first. vm_compute. reflexivity.
Defined.

Lemma X7_witness :
  generate_split_receipt_pdf sample_now sample_world sample_original sample_new
    ([sample_item] ++ <["total_cents" := VNone]> ∅ :: [sample_item]) [] "out.pdf" =
  Raise TypeError.
Proof.
  apply X7_first_bad_original_item_decides; vm_compute; reflexivity.
Defined.

Lemma X8_witness :
  generate_split_receipt_pdf sample_now sample_world
    (<["purpose_text" := VStr "Client lunch"]> sample_original) sample_new
    [sample_item] [] "out.pdf" =
  generate_split_receipt_pdf sample_now sample_world sample_original sample_new
    [sample_item] [] "out.pdf".
Proof.
  apply X8_original_receipt_other_keys_ignored; discriminate.
Defined.

Lemma X9_witness :
  generate_split_receipt_pdf sample_now sample_world sample_original
    (<["vendor" := VStr "Bistro"]> sample_new) [sample_item] [] "out.pdf" =
  generate_split_receipt_pdf sample_now sample_world sample_original sample_new
    [sample_item] [] "out.pdf".
Proof.
  apply X9_new_receipt_other_keys_ignored; discriminate.
Defined.


Lemma X11_witness :
  exists w' story info summary,
    generate_split_receipt_pdf sample_now sample_world sample_original sample_new
      [sample_item] [] "out.pdf" = Ok ("out.pdf", w') /\
    story_at w' "out.pdf" = Some story /\
    head (tables story) = Some info /\
    last (tables story) = Some summary /\
    cell info 2 1 = Some (VStr "$10.50 CAD") /\
    In (Paragraph "<b>Receipt A Total: $10.50 CAD</b>" body_style) story /\
    cell summary 1 1 = Some (VStr "$10.50").
Proof.
  eexists.
  edestruct (X11_one_text_per_total sample_now sample_world sample_original sample_new
               [sample_item] [] "out.pdf")
    as (story & info & summary & a_total & b_total & Hat & Hh & Hl & Ha & _ & A1 & A2 & A3 & _).
  { vm_compute. reflexivity. }
  vm_compute in Ha. injection Ha as <-.
  exists story, info, summary. split; [reflexivity|]. repeat split; assumption.
Defined.

Lemma X12_witness :
  exists w1 w2 pre mid post a b a' b',
    generate_split_receipt_pdf sample_now sample_world sample_original sample_new
      [sample_item] [] "out.pdf" = Ok ("out.pdf", w1) /\
    generate_split_receipt_pdf sample_now sample_world sample_original sample_new
      [] [sample_item; sample_item] "out.pdf" = Ok ("out.pdf", w2) /\
    story_at w1 "out.pdf" = Some (pre ++ a ++ mid ++ b ++ post) /\
    story_at w2 "out.pdf" = Some (pre ++ a' ++ mid ++ b' ++ post) /\
    length a = 1%nat /\ length b = 0%nat /\ length a' = 0%nat /\ length b' = 1%nat.
Proof.
  eexists _, _.
  edestruct (X12_items_change_item_tables_only sample_now sample_world sample_original
               sample_new [sample_item] [] [] [sample_item; sample_item] "out.pdf")
    as (pre & mid & post & a & b & a' & b' & H1 & H2 & _ & _ & _ & La & Lb & La' & Lb').
  { vm_compute. reflexivity. }
  { vm_compute. reflexivity. }
  exists pre, mid, post, a, b, a', b'.
  split; [reflexivity|]. split; [reflexivity|]. repeat split; assumption.
Defined.

Lemma X13_witness :
  exists w' story info,
    generate_split_receipt_pdf sample_now sample_world (<["id" := VStr "éééééééé"]> ∅)
      (<["id" := VStr "r-18"]> ∅) [] [] "out.pdf" = Ok ("out.pdf", w') /\
    story_at w' "out.pdf" = Some story /\
    head (tables story) = Some info /\
    cell info 3 1 = Some (VStr "éééééééé...") /\
    last story = Some (Paragraph (footer_text (VStr "éééééééé") (VStr "r-18")) body_style).
Proof.
  eexists.
  edestruct (X13_short_ids_shown_whole sample_now sample_world (<["id" := VStr "éééééééé"]> ∅)
               (<["id" := VStr "r-18"]> ∅) [] [] "out.pdf")
    as (story & info & oid & nid & t8 & t16 & u16 & Hat & Hoid & Hnid & Hh & Hc & Hl & _ &
        S8 & S16 & T16).
  { vm_compute. reflexivity. }
  vm_compute in Hoid. injection Hoid as <-. vm_compute in Hnid. injection Hnid as <-.
  rewrite (S8 ltac:(vm_compute; lia)) in Hc.
  rewrite (S16 ltac:(vm_compute; lia)), (T16 ltac:(vm_compute; lia)) in Hl.
  exists story, info. split; [reflexivity|]. repeat split; assumption.
Defined.

Lemma X14_witness :
  item_row sample_item = Ok [VStr "Pens"; VStr "3"; VStr "$3.50"; VStr "$10.50"].
Proof.
  apply (X14_item_amounts_exact sample_item "3" 350 1050); try reflexivity;
    vm_compute; discriminate.
Defined.
